(** * HistServ: history playback, deletion and export (irc/histserv.go)

    A shallow embedding of the HistServ command handlers and of
    [easySelectHistory].  The handlers talk to the rest of the server and to
    Go's standard library; every such call is recorded, in program order, in
    a trace of [Event]s, and the answer of each collaborator is read from the
    records [Runtime], [Server], [Client], [Channel] and [Sequence].  A
    handler is a computation in the monad [M], which threads the trace and
    propagates a Go panic. *)

From Stdlib Require Import ZArith List String Ascii Bool Lia.
Import ListNotations.

Local Open Scope string_scope.
Local Open Scope Z_scope.
Local Open Scope list_scope.

(** ** Go values *)

(** A Go [error], by its message; [None] is [nil]. *)
Definition error : Type := string.

Definition isNil {A : Type} (x : option A) : bool :=
  match x with
  | None => true
  | Some _ => false
  end.

(** Go's [int] and [int64] on the 64-bit targets: integers of
    [[-2^63, 2^63)], arithmetic wrapping around. *)
Definition wrap64 (z : Z) : Z := (z + 2 ^ 63) mod 2 ^ 64 - 2 ^ 63.

(** Go's [uint64]. *)
Definition wrapU64 (z : Z) : Z := z mod 2 ^ 64.

(** Decimal digits in a byte string. *)
Definition isDigit (c : ascii) : bool :=
  let n := nat_of_ascii c in (Nat.leb 48 n && Nat.leb n 57)%bool.

Definition isDot (c : ascii) : bool := Ascii.eqb c "."%char.

Definition digitVal (c : ascii) : Z := Z.of_nat (nat_of_ascii c) - 48.

(** Package [strconv] of Go's standard library.  [Atoi] is
    [ParseInt(s, 10, 0)]: an optional sign, then one or more decimal digits,
    and a range check against [int]. *)
Module strconv.

Definition ErrSyntax : error := "invalid syntax".
Definition ErrRange : error := "value out of range".

(** The value of a run of decimal digits, [None] at a byte that is not a
    digit. *)
Fixpoint decimal (acc : Z) (s : string) : option Z :=
  match s with
  | EmptyString => Some acc
  | String c r =>
      if isDigit c then decimal (10 * acc + digitVal c) r else None
  end.

Definition signOf (s : string) : bool * string :=
  match s with
  | String c r =>
      if Ascii.eqb c "+"%char then (false, r)
      else if Ascii.eqb c "-"%char then (true, r)
      else (false, s)
  | EmptyString => (false, s)
  end.

Definition Atoi (s : string) : Z * option error :=
  let '(neg, body) := signOf s in
  match body with
  | EmptyString => (0, Some ErrSyntax)
  | String _ _ =>
      match decimal 0 body with
      | None => (0, Some ErrSyntax)
      | Some n =>
          let v := if neg then - n else n in
          if v <? - 2 ^ 63 then (- 2 ^ 63, Some ErrRange)
          else if 2 ^ 63 <=? v then (2 ^ 63 - 1, Some ErrRange)
          else (v, None)
      end
  end.

End strconv.

(** Package [time] of Go's standard library, as far as the handlers use it.
    An instant counts nanoseconds from the zero [Time]; a [Duration] is an
    [int64] of nanoseconds.  [ParseDuration] follows the library function;
    its error values leave out the quoted input. *)
Module time.

Definition Time : Type := Z.
Definition Duration : Type := Z.

Definition zero : Time := 0.

(** Unary minus on a [Duration]. *)
Definition neg (d : Duration) : Duration := wrap64 (- d).

(** [t.Add(d)]. *)
Definition Add (t : Time) (d : Duration) : Time := t + d.

Definition errInvalid : error := "time: invalid duration".
Definition errMissingUnit : error := "time: missing unit in duration".
Definition errUnknownUnit : error := "time: unknown unit in duration".

(** [leadingInt]: consumes a run of digits; an error past [1<<63].  The
    accumulator stays below [2^64], so the [uint64] arithmetic is exact. *)
Fixpoint leadingInt (x : Z) (s : string) : option (Z * string) :=
  match s with
  | EmptyString => Some (x, s)
  | String c r =>
      if isDigit c then
        if 2 ^ 63 / 10 <? x then None
        else
          let x := x * 10 + digitVal c in
          if 2 ^ 63 <? x then None else leadingInt x r
      else Some (x, s)
  end.

(** [leadingFraction]: consumes a run of digits and never fails; digits
    past the precision of the accumulator are dropped.  [scale] is a power
    of ten below [10^20]. *)
Fixpoint leadingFraction (x scale : Z) (overflow : bool) (s : string)
  : Z * Z * string :=
  match s with
  | EmptyString => (x, scale, s)
  | String c r =>
      if isDigit c then
        if overflow then leadingFraction x scale true r
        else if (2 ^ 63 - 1) / 10 <? x then leadingFraction x scale true r
        else
          let y := x * 10 + digitVal c in
          if 2 ^ 63 <? y then leadingFraction x scale true r
          else leadingFraction y (scale * 10) false r
      else (x, scale, s)
  end.

(** The unit: the bytes up to the next ['.'] or digit. *)
Fixpoint unitSpan (s : string) : string * string :=
  match s with
  | EmptyString => (EmptyString, EmptyString)
  | String c r =>
      if (isDot c || isDigit c)%bool then (EmptyString, s)
      else let '(u, rest) := unitSpan r in (String c u, rest)
  end.

Definition micro : string :=
  String (ascii_of_nat 194) (String (ascii_of_nat 181) "s").
Definition mu : string :=
  String (ascii_of_nat 206) (String (ascii_of_nat 188) "s").

Definition unitMap (u : string) : option Z :=
  if String.eqb u "ns" then Some 1
  else if String.eqb u "us" then Some 1000
  else if String.eqb u micro then Some 1000
  else if String.eqb u mu then Some 1000
  else if String.eqb u "ms" then Some 1000000
  else if String.eqb u "s" then Some 1000000000
  else if String.eqb u "m" then Some 60000000000
  else if String.eqb u "h" then Some 3600000000000
  else None.

Section ParseDuration.

(** [uint64(float64(f) * (float64(unit) / scale))], the one
    floating-point expression of [ParseDuration]; its rounding is left
    to this parameter, called as [fraction f unit scale]. *)
Variable fraction : Z -> Z -> Z -> Z.

(** One pass of the loop: digits, an optional point and digits, and a
    unit, added to the [uint64] total [d]. *)
Definition term (d : Z) (s : string) : error + Z * string :=
  match s with
  | EmptyString => inl errInvalid
  | String c _ =>
      if negb (isDot c || isDigit c) then inl errInvalid
      else
        match leadingInt 0 s with
        | None => inl errInvalid
        | Some (v, s1) =>
            let pre := negb (Nat.eqb (String.length s) (String.length s1)) in
            let '(f, scale, post, s2) :=
              match s1 with
              | String c1 r1 =>
                  if isDot c1 then
                    let '(f, scale, s2) := leadingFraction 0 1 false r1 in
                    (f, scale,
                     negb (Nat.eqb (String.length r1) (String.length s2)),
                     s2)
                  else (0, 1, false, s1)
              | EmptyString => (0, 1, false, s1)
              end in
            if (negb pre && negb post)%bool then inl errInvalid
            else
              let '(u, s3) := unitSpan s2 in
              match u with
              | EmptyString => inl errMissingUnit
              | String _ _ =>
                  match unitMap u with
                  | None => inl errUnknownUnit
                  | Some unit =>
                      if 2 ^ 63 / unit <? v then inl errInvalid
                      else
                        let v := v * unit in
                        let v :=
                          if 0 <? f then wrapU64 (v + fraction f unit scale)
                          else v in
                        if (0 <? f) && (2 ^ 63 <? v) then inl errInvalid
                        else
                          let d := wrapU64 (d + v) in
                          if 2 ^ 63 <? d then inl errInvalid
                          else inr (d, s3)
                  end
              end
        end
  end.

(** [for s != ""]: every pass consumes at least one byte, so a fuel of
    the length of [s] is never used up. *)
Fixpoint terms (fuel : nat) (d : Z) (s : string) : error + Z :=
  match s with
  | EmptyString => inr d
  | String _ _ =>
      match fuel with
      | O => inl errInvalid
      | S fuel =>
          match term d s with
          | inl e => inl e
          | inr (d, s) => terms fuel d s
          end
      end
  end.

Definition ParseDuration (s : string) : Duration * option error :=
  let '(neg, s) := strconv.signOf s in
  if String.eqb s "0" then (0, None)
  else
    match s with
    | EmptyString => (0, Some errInvalid)
    | String _ _ =>
        match terms (String.length s) 0 s with
        | inl e => (0, Some e)
        | inr d =>
            if neg then (wrap64 (- wrap64 d), None)
            else if 2 ^ 63 - 1 <? d then (0, Some errInvalid)
            else (wrap64 d, None)
        end
    end.

End ParseDuration.

End time.

(** Modelled from the spec: the privilege levels of package [modes], which
    is not among the sources.  The handlers name one level, [Operator], for
    the scope-operator status of the specification. *)
Module modes.

Inductive Mode : Type :=
| Operator
| OtherMode (code : nat).

End modes.

(** Package [os]: an open file, by its path name.  A nil [*os.File] is
    [None]. *)
Module os.

Record File : Type := { Name : string }.

End os.

(** Modelled from the spec: the declarations of [utils.SplitMessage] and
    [utils.MessagePair] are not among the sources.  The payload of an item is
    a single string or an ordered sequence of parts, under one timestamp. *)
Module utils.

Record MessagePair : Type := {
  PairMessage : string;
  PairConcat : bool
}.

Record SplitMessage : Type := {
  Message : string;
  SplitMsgid : string;
  Split : list MessagePair;
  Time : time.Time
}.

End utils.

(** Modelled from the spec: the declarations of [history.Item],
    [history.ItemType] and [history.Selector] are not among the sources.  An
    item is of kind message, notice, or some other kind, and has a sender; a
    selector is a pair of bounds, a time and a message id, each of which may
    be unset. *)
Module history.

Inductive ItemType : Type :=
| Privmsg
| Notice
| OtherType (code : nat).

Definition ItemType_eqb (a b : ItemType) : bool :=
  match a, b with
  | Privmsg, Privmsg => true
  | Notice, Notice => true
  | OtherType m, OtherType n => Nat.eqb m n
  | _, _ => false
  end.

Record Item : Type := {
  Type_ : ItemType;
  Nick : string;
  AccountName : string;
  Message : utils.SplitMessage
}.

Record Selector : Type := {
  Msgid : string;
  Time : time.Time
}.

(** The composite literal [history.Selector{}]. *)
Definition emptySelector : Selector := {| Msgid := ""; Time := time.zero |}.

(** [history.Selector{Time: t}]. *)
Definition atTime (t : time.Time) : Selector := {| Msgid := ""; Time := t |}.

End history.

(** ** Notices

    A string that the handlers build: a translated literal, or the
    application of [fmt.Sprintf] to a translated format and its arguments,
    kept unevaluated. *)
Inductive Text : Type :=
| Plain (s : string)
| Sprintf (format : string) (args : list string).

(** ** The collaborators *)

Record Client : Type := {
  HasRoleCapabs : string -> bool;
  AccountName : string;
  Nick : string;
  (** [client.t]: translation into the client's language. *)
  t : string -> string
}.

Record Channel : Type := {
  ChannelName : string;
  ClientIsAtLeast : Client -> modes.Mode -> bool
}.

(** [history.Sequence], with the answer of its range query. *)
Record Sequence : Type := {
  Between : history.Selector -> history.Selector -> Z ->
            list history.Item * bool * option error
}.

Record Config : Type := {
  History_Enabled : bool;
  History_Persistent_Enabled : bool;
  History_Retention_EnableAccountIndexing : bool;
  History_Retention_AllowIndividualDelete : bool;
  History_ChathistoryMax : Z;
  getOutputPath : string -> string
}.

(** What a call into the server or the library does when it is allowed to
    panic. *)
Inductive Outcome : Type :=
| Returns
| Panics (v : string).

Record Server : Type := {
  Config_ : Config;
  channels_Get : string -> option Channel;
  clients_Get : string -> option Client;
  accounts_AccountToAccountName : string -> string;
  GetHistorySequence : Client -> string ->
                       option Channel * option Sequence * option error;
  DeleteMessage : string -> string -> string -> option error;
  historyDB_Export : string -> Outcome
}.

(** Go's standard library and the helpers and constants of the repository
    that are declared outside irc/histserv.go, as the handlers use them. *)
Record Runtime : Type := {
  Atoi : string -> Z * option error;
  ParseDuration : string -> time.Duration * option error;
  Now : time.Time;
  Format : string -> time.Time -> string;
  GenerateSecretToken : string;
  CasefoldName : string -> string * option error;
  NUHToNick : string -> string;
  IRCv3TimestampFormat : string;
  errNoSuchChannel : error;
  Create : string -> option os.File * option error;
  Flush : Outcome;
  Close : option os.File -> Outcome;
  Send : Outcome;
  Stack : string
}.

(** ** Effects *)

Inductive Event : Type :=
| EvNotice (text : Text)
| EvGetHistorySequence (target : string)
| EvAtoi (s : string)
| EvParseDuration (s : string)
| EvNow
| EvBetween (start end_ : history.Selector) (limit : Z)
| EvForgetHistory (accountName : string)
| EvDeleteMessage (target msgid accountName : string)
| EvCreate (pathname : string)
| EvGo (cfAccount : string) (outfile : option os.File)
       (filename alertNick : string)
| EvExport (cfAccount : string)
| EvFlush
| EvClose (outfile : option os.File)
| EvLogError (subsystem : string) (text : Text)
| EvSend (nick : string) (text : Text).

Inductive Result (A : Type) : Type :=
| Done (a : A)
| Panic (v : string).

Arguments Done {A} a.
Arguments Panic {A} v.

Definition M (A : Type) : Type := list Event -> Result A * list Event.

Definition ret {A : Type} (a : A) : M A := fun tr => (Done a, tr).

Definition bind {A B : Type} (m : M A) (k : A -> M B) : M B :=
  fun tr =>
    match m tr with
    | (Done a, tr') => k a tr'
    | (Panic v, tr') => (Panic v, tr')
    end.

Definition panic {A : Type} (v : string) : M A := fun tr => (Panic v, tr).

(** A call that is recorded and answers [a]. *)
Definition call {A : Type} (e : Event) (a : A) : M A :=
  fun tr => (Done a, tr ++ [e]).

(** A call that is recorded and may panic. *)
Definition callOutcome (e : Event) (o : Outcome) : M unit :=
  fun tr =>
    match o with
    | Returns => (Done tt, tr ++ [e])
    | Panics v => (Panic v, tr ++ [e])
    end.

Definition run {A : Type} (m : M A) : Result A * list Event := m [].

Declare Scope go_scope.
Delimit Scope go_scope with go.

Notation "x <- m ;; k" := (bind m (fun x => k))
  (at level 61, m at next level, right associativity) : go_scope.
Notation "' p <- m ;; k" := (bind m (fun x => let p := x in k))
  (at level 61, p pattern, m at next level, right associativity) : go_scope.
Notation "m ;; k" := (bind m (fun _ => k))
  (at level 61, right associativity) : go_scope.

Local Open Scope go_scope.

(** [s[i]] on a slice of strings: a run-time panic outside the slice. *)
Definition index (s : list string) (i : nat) : M string :=
  match nth_error s i with
  | Some x => ret x
  | None => panic "runtime error: index out of range"
  end.

Definition len {A : Type} (s : list A) : Z := Z.of_nat (List.length s).

(** Package [strings].  [ToLower] on the ASCII letters; the handlers only
    compare its result with an ASCII literal. *)
Module strings.

Definition lowerByte (c : ascii) : ascii :=
  let n := nat_of_ascii c in
  if (Nat.leb 65 n && Nat.leb n 90)%bool then ascii_of_nat (n + 32) else c.

Fixpoint ToLower (s : string) : string :=
  match s with
  | EmptyString => EmptyString
  | String c r => String (lowerByte c) (ToLower r)
  end.

End strings.

(** ** easySelectHistory *)

(** Lines 210-212: the target ["me"], in any case, stands for the direct
    messages of the client. *)
Definition historyTarget (target : string) : string :=
  if String.eqb (strings.ToLower target) "me" then "*" else target.

Section Handlers.

Variable rt : Runtime.

Definition easySelectHistory (server : Server) (client : Client)
    (params : list string)
  : M (list history.Item * option Channel * option error) :=
  target <- index params 0 ;;
  let target := historyTarget target in
  ' (channel, sequence, err) <-
    call (EvGetHistorySequence target)
         (GetHistorySequence server client target) ;;
  match sequence, err with
  | Some sequence, None =>
      let duration : time.Duration := 0 in
      let maxChathistoryLimit := History_ChathistoryMax (Config_ server) in
      let limit := 100 in
      let limit :=
        if maxChathistoryLimit <? limit then maxChathistoryLimit
        else limit in
      ' (duration, limit) <-
        (if 1 <? len params then
           arg <- index params 1 ;;
           ' (providedLimit, err) <- call (EvAtoi arg) (Atoi rt arg) ;;
           if (isNil err && negb (providedLimit =? 0))%bool then
             let limit := providedLimit in
             let limit :=
               if maxChathistoryLimit <? limit then maxChathistoryLimit
               else limit in
             ret (duration, limit)
           else if negb (isNil err) then
             ' (duration, err) <-
               call (EvParseDuration arg) (ParseDuration rt arg) ;;
             let limit := if isNil err then maxChathistoryLimit else limit in
             ret (duration, limit)
           else ret (duration, limit)
         else ret (duration, limit)) ;;
      if duration =? 0 then
        ' (items, _, err) <-
          call (EvBetween history.emptySelector history.emptySelector limit)
               (Between sequence history.emptySelector
                        history.emptySelector limit) ;;
        ret (items, channel, err)
      else
        now <- call EvNow (Now rt) ;;
        let start := history.atTime now in
        let end_ := history.atTime (time.Add now (time.neg duration)) in
        ' (items, _, err) <-
          call (EvBetween start end_ limit)
               (Between sequence start end_ limit) ;;
        ret (items, channel, err)
  | _, _ => ret ([], None, Some (errNoSuchChannel rt))
  end.

(** ** The handlers

    [service.Notice(rb, text)] is the event [EvNotice text]; the service
    and the response buffer do not appear otherwise. *)

Definition notice (text : Text) : M unit := call (EvNotice text) tt.

Definition histservForgetHandler (server : Server) (client : Client)
    (command : string) (params : list string) : M unit :=
  p0 <- index params 0 ;;
  let accountName := accounts_AccountToAccountName server p0 in
  accountName <-
    (if String.eqb accountName "" then
       notice (Plain (t client
         "Could not look up account name, proceeding anyway")) ;;
       ret p0
     else ret accountName) ;;
  call (EvForgetHistory accountName) tt ;;
  notice (Sprintf (t client "Enqueued account %s for message deletion")
                  [accountName]).

Definition histservDeleteHandler (server : Server) (client : Client)
    (command : string) (params : list string) : M unit :=
  ' (target, msgid) <-
    (if len params =? 1 then
       msgid <- index params 0 ;;
       ret ("", msgid)
     else
       target <- index params 0 ;;
       msgid <- index params 1 ;;
       ret (target, msgid)) ;;
  let accountName := "*" in
  let isChanop := false in
  let isOper := HasRoleCapabs client "history" in
  let '(isChanop, accountName) :=
    if negb isOper then
      if History_Retention_AllowIndividualDelete (Config_ server) then
        match channels_Get server target with
        | Some channel =>
            if ClientIsAtLeast channel client modes.Operator
            then (true, accountName)
            else (isChanop, AccountName client)
        | None => (isChanop, AccountName client)
        end
      else (isChanop, accountName)
    else (isChanop, accountName) in
  if (negb isOper && negb isChanop && String.eqb accountName "*")%bool then
    notice (Plain (t client "Insufficient privileges"))
  else
    err <- call (EvDeleteMessage target msgid accountName)
                (DeleteMessage server target msgid accountName) ;;
    match err with
    | None => notice (Plain (t client "Successfully deleted message"))
    | Some err =>
        if isOper then
          notice (Sprintf (t client "Error deleting message: %v") [err])
        else notice (Plain (t client "Could not delete message"))
    end.

(** [go f(...)] is the event [EvGo] with the arguments of the call; the
    goroutine runs [histservExportAndNotify] on a trace of its own. *)
Definition histservExportHandler (server : Server) (client : Client)
    (command : string) (params : list string) : M unit :=
  p0 <- index params 0 ;;
  let '(cfAccount, err) := CasefoldName rt p0 in
  match err with
  | Some _ => notice (Plain (t client "Invalid account name"))
  | None =>
      let config := Config_ server in
      now <- call EvNow (Now rt) ;;
      let filename :=
        (GenerateSecretToken rt ++ "-"
         ++ Format rt (IRCv3TimestampFormat rt) now ++ ".json")%string
      in
      let pathname := getOutputPath config filename in
      ' (outfile, err) <- call (EvCreate pathname) (Create rt pathname) ;;
      match err with
      | Some err =>
          notice (Sprintf (t client "Error opening export file: %v") [err])
      | None =>
          notice (Sprintf (t client
            "Started exporting data for account %[1]s to file %[2]s")
            [cfAccount; filename])
      end ;;
      call (EvGo cfAccount outfile filename (Nick client)) tt
  end.

(** [defer d(); body]: [d] runs when [body] has returned or panicked; a
    panic of [d] replaces the one under way. *)
Definition defer {A : Type} (d : M unit) (body : M A) : M A :=
  fun tr =>
    match body tr with
    | (r, tr') =>
        match d tr' with
        | (Done _, tr'') => (r, tr'')
        | (Panic v, tr'') => (Panic v, tr'')
        end
    end.

(** [defer func() { if r := recover(); r != nil { handler(r) } }(); body]
    in a function without results: a panic of [body] stops here.  The value
    of a panic is not nil. *)
Definition deferRecover (handler : string -> M unit) (body : M unit)
  : M unit :=
  fun tr =>
    match body tr with
    | (Done a, tr') => (Done a, tr')
    | (Panic r, tr') => handler r tr'
    end.

Definition histservExportAndNotify (server : Server) (cfAccount : string)
    (outfile : option os.File) (filename alertNick : string) : M unit :=
  deferRecover
    (fun r =>
       call (EvLogError "history"
               (Sprintf "Panic in history export routine: %v\n%s"
                        [r; Stack rt])) tt)
    (defer (callOutcome (EvClose outfile) (Close rt outfile))
       (defer (callOutcome EvFlush (Flush rt))
          (callOutcome (EvExport cfAccount)
                       (historyDB_Export server cfAccount) ;;
           match clients_Get server alertNick with
           | Some client =>
               if HasRoleCapabs client "history" then
                 callOutcome
                   (EvSend (Nick client)
                      (Sprintf (t client
                         "Data export for %[1]s completed and written to %[2]s")
                         [cfAccount; filename]))
                   (Send rt)
               else ret tt
           | None => ret tt
           end))).

Definition playMessage (timestamp : time.Time) (nick message : string)
  : M unit :=
  notice (Sprintf "%s <%s> %s"
                  [Format rt "15:04:05" timestamp; NUHToNick rt nick;
                   message]).

(** [for _, x := range l { body }]. *)
Fixpoint forRange {A : Type} (l : list A) (body : A -> M unit) : M unit :=
  match l with
  | [] => ret tt
  | x :: l' => body x ;; forRange l' body
  end.

Definition histservPlayHandler (server : Server) (client : Client)
    (command : string) (params : list string) : M unit :=
  ' (items, _, err) <- easySelectHistory server client params ;;
  match err with
  | Some _ => notice (Plain (t client "Could not retrieve history"))
  | None =>
      forRange items (fun item =>
        if (negb (history.ItemType_eqb (history.Type_ item) history.Privmsg)
            && negb (history.ItemType_eqb (history.Type_ item)
                                          history.Notice))%bool
        then ret tt
        else
          match utils.Split (history.Message item) with
          | [] =>
              playMessage (utils.Time (history.Message item))
                          (history.Nick item)
                          (utils.Message (history.Message item))
          | split =>
              forRange split (fun pair =>
                playMessage (utils.Time (history.Message item))
                            (history.Nick item)
                            (utils.PairMessage pair))
          end) ;;
      notice (Plain (t client "End of history playback"))
  end.

End Handlers.

(** ** The command table *)

Definition histservHelp : string :=
  "HistServ provides commands related to history.".

Definition histservEnabled (config : Config) : bool := History_Enabled config.

Definition historyComplianceEnabled (config : Config) : bool :=
  (History_Enabled config && History_Persistent_Enabled config
   && History_Retention_EnableAccountIndexing config)%bool.

(** Modelled from the spec: the declaration of [serviceCommand] is in
    irc/services.go, which is not among the sources; the fields are the ones
    that the table of irc/histserv.go sets, and a field that an entry leaves
    out has the zero value of its type.  A handler takes the server, the
    client, the command and its parameters. *)
Record serviceCommand : Type := {
  handler : Runtime -> Server -> Client -> string -> list string -> M unit;
  help : string;
  helpShort : string;
  capabs : list string;
  enabled : Config -> bool;
  minParams : Z;
  maxParams : Z
}.

(** [histservCommands], a map from the name of a command to its entry, as
    the list of its keys and values. *)
Definition histservCommands : list (string * serviceCommand) :=
  [("forget", {|
      handler := fun _ => histservForgetHandler;
      help := "Syntax: $bFORGET <account>$b

FORGET deletes all history messages sent by an account.";
      helpShort :=
        "$bFORGET$b deletes all history messages sent by an account.";
      capabs := ["history"];
      enabled := histservEnabled;
      minParams := 1;
      maxParams := 1
    |});
   ("delete", {|
      handler := fun _ => histservDeleteHandler;
      help := "Syntax: $bDELETE [target] <msgid>$b

DELETE deletes an individual message by its msgid. The target is a channel
name or nickname; depending on the history implementation, this may or may not
be necessary to locate the message.";
      helpShort := "$bDELETE$b deletes an individual message by its msgid.";
      capabs := [];
      enabled := histservEnabled;
      minParams := 1;
      maxParams := 2
    |});
   ("export", {|
      handler := histservExportHandler;
      help := "Syntax: $bEXPORT <account>$b

EXPORT exports all messages sent by an account as JSON. This can be used at
the request of the account holder.";
      helpShort :=
        "$bEXPORT$b exports all messages sent by an account as JSON.";
      capabs := ["history"];
      enabled := historyComplianceEnabled;
      minParams := 1;
      maxParams := 1
    |});
   ("play", {|
      handler := histservPlayHandler;
      help := "Syntax: $bPLAY <target> [limit]$b

PLAY plays back history messages, rendering them into direct messages from
HistServ. 'target' is a channel name (or 'me' for direct messages), and 'limit'
is a message count or a time duration. Note that message playback may be
incomplete or degraded, relative to direct playback from /HISTORY or
CHATHISTORY.";
      helpShort := "$bPLAY$b plays back history messages.";
      capabs := [];
      enabled := histservEnabled;
      minParams := 1;
      maxParams := 2
    |})].

(** ** Vocabulary of the statements *)

(** The answer of the unconstrained query with limit [limit]. *)
Definition unconstrained (channel : option Channel) (sequence : Sequence)
    (limit : Z) : Result (list history.Item * option Channel * option error) :=
  let '(items, _, err) :=
    Between sequence history.emptySelector history.emptySelector limit in
  Done (items, channel, err).

(** The answer of the query from [start] back to [end_]. *)
Definition window (channel : option Channel) (sequence : Sequence)
    (start end_ : history.Selector) (limit : Z)
  : Result (list history.Item * option Channel * option error) :=
  let '(items, _, err) := Between sequence start end_ limit in
  Done (items, channel, err).

(** The notices in a trace. *)
Definition isNotice (e : Event) : bool :=
  match e with
  | EvNotice _ => true
  | _ => false
  end.

Definition notices (tr : list Event) : list Event := filter isNotice tr.

(** The range queries in a trace. *)
Definition isBetween (e : Event) : bool :=
  match e with
  | EvBetween _ _ _ => true
  | _ => false
  end.

Definition queries (tr : list Event) : list Event := filter isBetween tr.

(** The completion notices and the log entries in a trace. *)
Definition isSend (e : Event) : bool :=
  match e with
  | EvSend _ _ => true
  | _ => false
  end.

Definition isLogError (e : Event) : bool :=
  match e with
  | EvLogError _ _ => true
  | _ => false
  end.

(** The notice that [histservExportAndNotify] sends to [client]. *)
Definition completion (client : Client) (cfAccount filename : string)
  : Event :=
  EvSend (Nick client)
    (Sprintf (t client "Data export for %[1]s completed and written to %[2]s")
             [cfAccount; filename]).

(** The requester of an export, when still connected and still holding the
    role capability "history". *)
Definition requester (server : Server) (alertNick : string) : option Client :=
  match clients_Get server alertNick with
  | Some client => if HasRoleCapabs client "history" then Some client else None
  | None => None
  end.

(** The calls of [outfile.Close] in a trace. *)
Definition isClose (e : Event) : bool :=
  match e with
  | EvClose _ => true
  | _ => false
  end.

(** The calls of [server.DeleteMessage] in a trace, with their arguments. *)
Definition storeCalls (tr : list Event) : list (string * string * string) :=
  flat_map (fun e =>
              match e with
              | EvDeleteMessage target msgid accountName =>
                  [(target, msgid, accountName)]
              | _ => []
              end) tr.

(** [params] is [[msgid]], or [[target, msgid]] and more. *)
Definition deleteParams (params : list string) (target msgid : string)
  : Prop :=
  (params = [msgid] /\ target = "") \/
  (exists rest, params = target :: msgid :: rest).

(** Whether the client is at least an operator of the channel [target]. *)
Definition isChannelOperator (server : Server) (client : Client)
    (target : string) : bool :=
  match channels_Get server target with
  | Some channel => ClientIsAtLeast channel client modes.Operator
  | None => false
  end.

(** The one event of a denied deletion. *)
Definition denied (client : Client) : list Event :=
  [EvNotice (Plain (t client "Insufficient privileges"))].

(** The notice that follows the call of the store with [accountName]. *)
Definition deleteReply (server : Server) (client : Client)
    (target msgid accountName : string) : Event :=
  match DeleteMessage server target msgid accountName with
  | None => EvNotice (Plain (t client "Successfully deleted message"))
  | Some err =>
      if HasRoleCapabs client "history" then
        EvNotice (Sprintf (t client "Error deleting message: %v") [err])
      else EvNotice (Plain (t client "Could not delete message"))
  end.

(** The entry that the deferred function writes for the panic value [v]. *)
Definition logged (rt : Runtime) (v : string) : Event :=
  EvLogError "history"
    (Sprintf "Panic in history export routine: %v\n%s" [v; Stack rt]).

(** Playback as section 4.4 of the specification words it: an item of kind
    message or notice gives one line, or one line per split part, under the
    time and the sender of the item; any other item gives none. *)
Definition eligible (item : history.Item) : bool :=
  match history.Type_ item with
  | history.Privmsg | history.Notice => true
  | history.OtherType _ => false
  end.

Definition line (rt : Runtime) (item : history.Item) (message : string)
  : Event :=
  EvNotice (Sprintf "%s <%s> %s"
              [Format rt "15:04:05" (utils.Time (history.Message item));
               NUHToNick rt (history.Nick item);
               message]).

Definition rendered (rt : Runtime) (item : history.Item) : list Event :=
  if eligible item then
    match utils.Split (history.Message item) with
    | [] => [line rt item (utils.Message (history.Message item))]
    | parts => map (fun pair => line rt item (utils.PairMessage pair)) parts
    end
  else [].

(** ** A sample deployment, for the concrete runs *)
Module Sample.

(** The fraction of a unit without the rounding of [float64]; the sample
    arguments have no fractional part. *)
Definition fraction (f unit scale : Z) : Z := f * unit / scale.

(** The nick of a nick!user@host. *)
Fixpoint nickOf (nuh : string) : string :=
  match nuh with
  | EmptyString => EmptyString
  | String c r => if Ascii.eqb c "!"%char then EmptyString
                  else String c (nickOf r)
  end.

(** The export directory is not writable. *)
Definition runtime : Runtime := {|
  Atoi := strconv.Atoi;
  ParseDuration := time.ParseDuration fraction;
  Now := 63740000000000000000;
  Format := fun layout _ => layout;
  GenerateSecretToken := "c3VwZXJzZWNyZXQ";
  CasefoldName := fun name => (strings.ToLower name, None);
  NUHToNick := nickOf;
  IRCv3TimestampFormat := "2006-01-02T15:04:05.000Z";
  errNoSuchChannel := "No such channel";
  Create := fun pathname => (None, Some "permission denied");
  Flush := Returns;
  Close := fun _ => Returns;
  Send := Returns;
  Stack := "goroutine 42 [running]"
|}.

Definition mkClient (nick account : string) (oper : bool) : Client := {|
  HasRoleCapabs := fun capab => (oper && String.eqb capab "history")%bool;
  AccountName := account;
  Nick := nick;
  t := fun s => s
|}.

Definition admin : Client := mkClient "admin" "admin" true.
Definition chanop : Client := mkClient "chanop" "*" false.
Definition alice : Client := mkClient "alice" "alice" false.
Definition guest : Client := mkClient "guest" "*" false.

Definition general : Channel := {|
  ChannelName := "#general";
  ClientIsAtLeast := fun client _ => String.eqb (Nick client) "chanop"
|}.

Definition message (kind : history.ItemType) (nick text : string)
    (parts : list string) : history.Item := {|
  history.Type_ := kind;
  history.Nick := nick;
  history.AccountName := "*";
  history.Message := {|
    utils.Message := text;
    utils.SplitMsgid := "";
    utils.Split :=
      map (fun part => {| utils.PairMessage := part;
                          utils.PairConcat := false |}) parts;
    utils.Time := 63739999000000000000
  |}
|}.

Definition items : list history.Item :=
  [message history.Privmsg "alice!a@host" "hello" [];
   message (history.OtherType 0) "bob!b@host" "" [];
   message history.Notice "bob!b@host" "a long notice"
           ["a long "; "notice"]].

Definition sequence : Sequence := {|
  Between := fun _ _ _ => (items, false, None)
|}.

Definition config : Config := {|
  History_Enabled := true;
  History_Persistent_Enabled := true;
  History_Retention_EnableAccountIndexing := true;
  History_Retention_AllowIndividualDelete := true;
  History_ChathistoryMax := 200;
  getOutputPath := fun filename => ("/var/lib/ergo/" ++ filename)%string
|}.

Definition server : Server := {|
  Config_ := config;
  channels_Get := fun name =>
    if String.eqb name "#general" then Some general else None;
  clients_Get := fun nick =>
    if String.eqb nick "admin" then Some admin else None;
  accounts_AccountToAccountName := fun name => name;
  GetHistorySequence := fun _ target =>
    if (String.eqb target "#general" || String.eqb target "mychannel")%bool
    then (Some general, Some sequence, None)
    else (None, None, None);
  DeleteMessage := fun _ msgid _ =>
    if String.eqb msgid "abc123" then None else Some "no such message";
  historyDB_Export := fun _ => Panics "nil pointer dereference"
|}.

(** The same server with individual deletion switched off. *)
Definition strictServer : Server := {|
  Config_ := {|
    History_Enabled := true;
    History_Persistent_Enabled := true;
    History_Retention_EnableAccountIndexing := true;
    History_Retention_AllowIndividualDelete := false;
    History_ChathistoryMax := 200;
    getOutputPath := getOutputPath config
  |};
  channels_Get := channels_Get server;
  clients_Get := clients_Get server;
  accounts_AccountToAccountName := accounts_AccountToAccountName server;
  GetHistorySequence := GetHistorySequence server;
  DeleteMessage := DeleteMessage server;
  historyDB_Export := historyDB_Export server
|}.

(** A name that is empty or "*" does not casefold. *)
Definition strictFold (name : string) : string * option error :=
  if (String.eqb name "" || String.eqb name "*")%bool
  then ("", Some "invalid name")
  else (strings.ToLower name, None).

(** The same runtime over a writable export directory, with the stricter
    casefolding. *)
Definition writableRuntime : Runtime := {|
  Atoi := Atoi runtime;
  ParseDuration := ParseDuration runtime;
  Now := Now runtime;
  Format := Format runtime;
  GenerateSecretToken := GenerateSecretToken runtime;
  CasefoldName := strictFold;
  NUHToNick := NUHToNick runtime;
  IRCv3TimestampFormat := IRCv3TimestampFormat runtime;
  errNoSuchChannel := errNoSuchChannel runtime;
  Create := fun pathname => (Some {| os.Name := pathname |}, None);
  Flush := Returns;
  Close := fun _ => Returns;
  Send := Returns;
  Stack := Stack runtime
|}.

(** A configuration with history switched off. *)
Definition noHistory : Config := {|
  History_Enabled := false;
  History_Persistent_Enabled := true;
  History_Retention_EnableAccountIndexing := true;
  History_Retention_AllowIndividualDelete := true;
  History_ChathistoryMax := 200;
  getOutputPath := getOutputPath config
|}.

End Sample.

(** * Properties *)

(** Unfolding of the monad. *)
Ltac go_simpl :=
  cbv beta iota zeta
      delta [run bind call callOutcome ret panic index nth_error app].

Tactic Notation "go_simpl" "in" hyp(H) :=
  cbv beta iota zeta
      delta [run bind call callOutcome ret panic index nth_error app] in H.

(** The events of a short trace, one by one. *)
Ltac in_trace H :=
  repeat match type of H with
    | In _ (_ :: _) => destruct H as [H | H]
    | In _ [] => destruct H
    end;
  try discriminate H.

Lemma limit_is_min (m c : Z) : (if m <? c then m else c) = Z.min c m.
Proof.
  destruct (Z.ltb_spec m c); lia.
Qed.

Lemma len_one {A : Type} (x : A) : (1 <? len [x]) = false.
Proof.
  reflexivity.
Qed.

Lemma len_two_or_more {A : Type} (x y : A) (rest : list A) :
  (1 <? len (x :: y :: rest)) = true.
Proof.
  unfold len. apply Z.ltb_lt. cbn [List.length]. lia.
Qed.

(** ** The library models *)

Lemma wrap64_range (z : Z) : - 2 ^ 63 <= wrap64 z < 2 ^ 63.
Proof.
  unfold wrap64.
  pose proof (Z.mod_pos_bound (z + 2 ^ 63) (2 ^ 64) eq_refl). lia.
Qed.

Lemma wrap64_small (z : Z) : - 2 ^ 63 <= z < 2 ^ 63 -> wrap64 z = z.
Proof.
  intros H. unfold wrap64. rewrite Z.mod_small; lia.
Qed.

Lemma neg_positive (d : time.Duration) :
  0 < d < 2 ^ 63 -> time.neg d = - d.
Proof.
  intros H. unfold time.neg. apply wrap64_small. lia.
Qed.

(** A string of digits is consumed whole by [leadingInt], unless it
    overflows. *)
Lemma decimal_leadingInt (s : string) :
  forall acc n x,
    strconv.decimal acc s = Some n ->
    time.leadingInt x s = None \/
    exists v, time.leadingInt x s = Some (v, EmptyString).
Proof.
  induction s as [| c r IH]; intros acc n x Hd.
  - right. exists x. reflexivity.
  - cbn [strconv.decimal] in Hd. cbn [time.leadingInt].
    destruct (isDigit c); [| discriminate].
    destruct (2 ^ 63 / 10 <? x); [left; reflexivity |].
    destruct (2 ^ 63 <? x * 10 + digitVal c); [left; reflexivity |].
    eapply IH; eassumption.
Qed.

Example Atoi_runs :
  strconv.Atoi "250" = (250, None) /\
  strconv.Atoi "-5" = (-5, None) /\
  strconv.Atoi "+0" = (0, None) /\
  strconv.Atoi "10m" = (0, Some strconv.ErrSyntax) /\
  strconv.Atoi "" = (0, Some strconv.ErrSyntax) /\
  strconv.Atoi "9223372036854775808"
  = (9223372036854775807, Some strconv.ErrRange).
Proof.
  repeat split; reflexivity.
Qed.

Example ParseDuration_runs :
  time.ParseDuration Sample.fraction "10m" = (600000000000, None) /\
  time.ParseDuration Sample.fraction "1h30m" = (5400000000000, None) /\
  time.ParseDuration Sample.fraction "-2s" = (-2000000000, None) /\
  time.ParseDuration Sample.fraction "0" = (0, None) /\
  time.ParseDuration Sample.fraction "250"
  = (0, Some time.errMissingUnit) /\
  time.ParseDuration Sample.fraction "ten"
  = (0, Some time.errInvalid) /\
  time.ParseDuration Sample.fraction "3d"
  = (0, Some time.errUnknownUnit).
Proof.
  repeat split; vm_compute; reflexivity.
Qed.

Section LibraryFacts.

Variable fraction : Z -> Z -> Z -> Z.

(** A [Duration] that [ParseDuration] returns is an [int64]. *)
Lemma ParseDuration_range (s : string) (d : time.Duration)
    (e : option error) :
  time.ParseDuration fraction s = (d, e) -> - 2 ^ 63 <= d < 2 ^ 63.
Proof.
  unfold time.ParseDuration.
  destruct (strconv.signOf s) as [neg body].
  destruct (String.eqb body "0").
  - intros H. injection H as <- _. lia.
  - destruct body as [| a b].
    + intros H. injection H as <- _. lia.
    + destruct (time.terms fraction _ 0 _) as [e' | d'].
      * intros H. injection H as <- _. lia.
      * destruct neg.
        -- intros H. injection H as <- _. apply wrap64_range.
        -- destruct (2 ^ 63 - 1 <? d'); intros H; injection H as <- _.
           ++ lia.
           ++ apply wrap64_range.
Qed.

(** What [Atoi] accepts is a sign and digits; [ParseDuration] accepts
    such a string only in the form of a zero. *)
Lemma Atoi_accepts_no_duration (s : string) (c : Z) (d : time.Duration) :
  strconv.Atoi s = (c, None) ->
  time.ParseDuration fraction s = (d, None) ->
  d = 0.
Proof.
  unfold strconv.Atoi, time.ParseDuration.
  destruct (strconv.signOf s) as [neg body].
  destruct (String.eqb body "0").
  - intros _ H. injection H as <-. reflexivity.
  - destruct body as [| a b]; [discriminate |].
    destruct (strconv.decimal 0 (String a b)) as [n |] eqn:Hdec;
      [| discriminate].
    intros _.
    cbn [String.length time.terms].
    unfold time.term.
    assert (Ha : isDigit a = true).
    { cbn [strconv.decimal] in Hdec. destruct (isDigit a);
        [reflexivity | discriminate]. }
    rewrite Ha, orb_true_r. cbn [negb].
    destruct (decimal_leadingInt _ _ _ 0 Hdec) as [-> | [v ->]].
    + discriminate.
    + cbn. discriminate.
Qed.

End LibraryFacts.

(** The loop of [ParseDuration] ends before its fuel does. *)
Lemma leadingInt_suffix (s : string) :
  forall x v s1,
    time.leadingInt x s = Some (v, s1) ->
    (String.length s1 <= String.length s)%nat.
Proof.
  induction s as [| c r IH]; intros x v s1; cbn [time.leadingInt].
  - intros H. injection H as _ <-. lia.
  - destruct (isDigit c).
    + destruct (2 ^ 63 / 10 <? x); [discriminate |].
      destruct (2 ^ 63 <? x * 10 + digitVal c); [discriminate |].
      intros H. apply IH in H. cbn [String.length]. lia.
    + intros H. injection H as _ <-. lia.
Qed.

Lemma leadingFraction_suffix (s : string) :
  forall x scale o f scale' s2,
    time.leadingFraction x scale o s = (f, scale', s2) ->
    (String.length s2 <= String.length s)%nat.
Proof.
  induction s as [| c r IH]; intros x scale o f scale' s2;
    cbn [time.leadingFraction].
  - intros H. injection H as _ _ <-. lia.
  - destruct (isDigit c).
    + cbn [String.length].
      destruct o; [intros H; apply IH in H; lia |].
      destruct ((2 ^ 63 - 1) / 10 <? x); [intros H; apply IH in H; lia |].
      destruct (2 ^ 63 <? x * 10 + digitVal c); intros H; apply IH in H; lia.
    + intros H. injection H as _ _ <-. lia.
Qed.

Lemma unitSpan_length (s : string) :
  forall u rest,
    time.unitSpan s = (u, rest) ->
    (String.length u + String.length rest = String.length s)%nat.
Proof.
  induction s as [| c r IH]; intros u rest; cbn [time.unitSpan].
  - intros H. injection H as <- <-. reflexivity.
  - destruct (isDot c || isDigit c)%bool.
    + intros H. injection H as <- <-. reflexivity.
    + destruct (time.unitSpan r) as [u' rest'].
      intros H. injection H as <- <-.
      specialize (IH _ _ eq_refl). cbn [String.length]. lia.
Qed.

Section Fuel.

Variable fraction : Z -> Z -> Z -> Z.

Lemma term_shrinks (d : Z) (s : string) (d' : Z) (s' : string) :
  time.term fraction d s = inr (d', s') ->
  (String.length s' < String.length s)%nat.
Proof.
  unfold time.term.
  destruct s as [| c r]; [discriminate |].
  destruct (negb (isDot c || isDigit c)); [discriminate |].
  destruct (time.leadingInt 0 (String c r)) as [[v s1] |] eqn:Hint;
    [| discriminate].
  apply leadingInt_suffix in Hint.
  assert (Hfrac : forall f scale post s2,
             match s1 with
             | String c1 r1 =>
                 if isDot c1 then
                   let '(f, scale, s2) :=
                     time.leadingFraction 0 1 false r1 in
                   (f, scale,
                    negb (Nat.eqb (String.length r1) (String.length s2)),
                    s2)
                 else (0, 1, false, s1)
             | EmptyString => (0, 1, false, s1)
             end = (f, scale, post, s2) ->
             (String.length s2 <= String.length s1)%nat).
  { intros f scale post s2. destruct s1 as [| c1 r1].
    - intros H. injection H as _ _ _ <-. lia.
    - destruct (isDot c1).
      + destruct (time.leadingFraction 0 1 false r1) as [[f' sc'] s2']
          eqn:Hfr.
        apply leadingFraction_suffix in Hfr.
        intros H. injection H as _ _ _ <-. cbn [String.length]. lia.
      + intros H. injection H as _ _ _ <-. lia. }
  destruct (match s1 with
            | String c1 r1 => _
            | EmptyString => _
            end) as [[[f scale] post] s2].
  specialize (Hfrac _ _ _ _ eq_refl).
  destruct (negb _ && negb post)%bool; [discriminate |].
  destruct (time.unitSpan s2) as [u s3] eqn:Hu.
  apply unitSpan_length in Hu.
  destruct u as [| a u]; [discriminate |].
  destruct (time.unitMap (String a u)) as [unit |]; [| discriminate].
  destruct (2 ^ 63 / unit <? v); [discriminate |].
  cbv zeta.
  destruct ((0 <? f) && _)%bool; [discriminate |].
  destruct (2 ^ 63 <? _); [discriminate |].
  intros H. injection H as _ <-.
  cbn [String.length] in *. lia.
Qed.

Lemma terms_fuel (fuel : nat) :
  forall fuel' d s,
    (String.length s <= fuel)%nat ->
    (String.length s <= fuel')%nat ->
    time.terms fraction fuel d s = time.terms fraction fuel' d s.
Proof.
  induction fuel as [| fuel IH]; intros fuel' d s H1 H2.
  - destruct s; [| cbn [String.length] in H1; lia].
    destruct fuel'; reflexivity.
  - destruct s as [| c r]; [destruct fuel'; reflexivity |].
    destruct fuel' as [| fuel']; [cbn [String.length] in H2; lia |].
    cbn [time.terms].
    destruct (time.term fraction d (String c r)) as [e | [d' s']] eqn:Ht;
      [reflexivity |].
    apply term_shrinks in Ht.
    apply IH; lia.
Qed.

End Fuel.

(** ** easySelectHistory *)

Section EasySelectHistory.

Variable rt : Runtime.
Variables (server : Server) (client : Client).
Variables (target arg : string) (rest : list string).
Variables (channel : option Channel) (sequence : Sequence).

Hypothesis found :
  GetHistorySequence server client (historyTarget target)
  = (channel, Some sequence, None).

Let maxLimit : Z := History_ChathistoryMax (Config_ server).

(** A second argument that [Atoi] accepts with a value other than zero is
    the count. *)
Lemma easySelectHistory_count (c : Z) :
  Atoi rt arg = (c, None) ->
  c <> 0 ->
  run (easySelectHistory rt server client (target :: arg :: rest))
  = (unconstrained channel sequence (Z.min c maxLimit),
     [EvGetHistorySequence (historyTarget target);
      EvAtoi arg;
      EvBetween history.emptySelector history.emptySelector
                (Z.min c maxLimit)]).
Proof.
  intros Hc Hnz.
  unfold easySelectHistory, unconstrained.
  rewrite len_two_or_more.
  go_simpl. rewrite found. go_simpl. rewrite Hc. cbn [isNil andb].
  apply Z.eqb_neq in Hnz. rewrite Hnz. cbn [negb].
  rewrite limit_is_min. cbn [Z.eqb].
  fold maxLimit.
  destruct (Between sequence _ _ _) as [[items hit] err].
  reflexivity.
Qed.

(** [Atoi] accepts the second argument with the value zero: the second
    test of the chain, [err != nil], fails as well. *)
Lemma easySelectHistory_zero :
  Atoi rt arg = (0, None) ->
  run (easySelectHistory rt server client (target :: arg :: rest))
  = (unconstrained channel sequence (Z.min 100 maxLimit),
     [EvGetHistorySequence (historyTarget target);
      EvAtoi arg;
      EvBetween history.emptySelector history.emptySelector
                (Z.min 100 maxLimit)]).
Proof.
  intros Hc.
  unfold easySelectHistory, unconstrained.
  rewrite len_two_or_more.
  go_simpl. rewrite found. go_simpl. rewrite Hc.
  cbn [isNil andb negb Z.eqb].
  rewrite limit_is_min.
  fold maxLimit.
  destruct (Between sequence _ _ _) as [[items hit] err].
  reflexivity.
Qed.

(** [Atoi] rejects the second argument and [ParseDuration] accepts it with
    a duration other than zero. *)
Lemma easySelectHistory_duration (c : Z) (e : error) (d : time.Duration) :
  Atoi rt arg = (c, Some e) ->
  ParseDuration rt arg = (d, None) ->
  d <> 0 ->
  let start := history.atTime (Now rt) in
  let end_ := history.atTime (time.Add (Now rt) (time.neg d)) in
  run (easySelectHistory rt server client (target :: arg :: rest))
  = (window channel sequence start end_ maxLimit,
     [EvGetHistorySequence (historyTarget target);
      EvAtoi arg;
      EvParseDuration arg;
      EvNow;
      EvBetween start end_ maxLimit]).
Proof.
  intros Hc Hd Hnz start end_.
  unfold easySelectHistory, window.
  rewrite len_two_or_more.
  go_simpl. rewrite found. go_simpl. rewrite Hc.
  cbn [isNil andb negb]. go_simpl. rewrite Hd. cbn [isNil].
  apply Z.eqb_neq in Hnz. rewrite Hnz.
  fold maxLimit. fold start. fold end_.
  destruct (Between sequence _ _ _) as [[items hit] err].
  reflexivity.
Qed.

End EasySelectHistory.

(** C4.  Whatever the arguments, a limit that [easySelectHistory] passes to
    [Sequence.Between] is at most the configured maximum, and it is fixed by
    the path taken: the minimum of 100 and the maximum by default (no second
    argument, a count of zero, or an argument that neither parser accepts),
    the minimum of the count and the maximum when the second argument is a
    count other than zero, and the maximum itself when [Atoi] rejects the
    second argument and [ParseDuration] accepts it. *)
Theorem limit_bounded (rt : Runtime) (server : Server) (client : Client)
    (params : list string) (start end_ : history.Selector) (limit : Z) :
  In (EvBetween start end_ limit)
     (snd (run (easySelectHistory rt server client params))) ->
  let maxLimit := History_ChathistoryMax (Config_ server) in
  limit <= maxLimit /\
  limit = match nth_error params 1 with
          | None => Z.min 100 maxLimit
          | Some arg =>
              match Atoi rt arg with
              | (c, None) =>
                  if c =? 0 then Z.min 100 maxLimit else Z.min c maxLimit
              | (_, Some _) =>
                  match ParseDuration rt arg with
                  | (_, None) => maxLimit
                  | (_, Some _) => Z.min 100 maxLimit
                  end
              end
          end.
Proof.
  intros Hin maxLimit.
  assert (Hpath :
    limit = match nth_error params 1 with
            | None => Z.min 100 maxLimit
            | Some arg =>
                match Atoi rt arg with
                | (c, None) =>
                    if c =? 0 then Z.min 100 maxLimit else Z.min c maxLimit
                | (_, Some _) =>
                    match ParseDuration rt arg with
                    | (_, None) => maxLimit
                    | (_, Some _) => Z.min 100 maxLimit
                    end
                end
            end).
  { unfold easySelectHistory in Hin.
    destruct params as [| target rest]; [go_simpl in Hin; destruct Hin |].
    destruct rest as [| arg rest];
      [rewrite len_one in Hin | rewrite len_two_or_more in Hin];
      go_simpl in Hin;
      destruct (GetHistorySequence server client (historyTarget target))
        as [[channel [sequence |]] [err |]];
      go_simpl in Hin; cbn [snd] in Hin; in_trace Hin;
      fold maxLimit in Hin; cbn [nth_error].
    - cbn [Z.eqb] in Hin.
      rewrite limit_is_min in Hin.
      destruct (Between sequence _ _ _) as [[items hit] err].
      cbn [snd] in Hin. in_trace Hin.
      injection Hin as _ _ <-. reflexivity.
    - destruct (Atoi rt arg) as [c [e |]] eqn:Hc.
      + cbn [isNil andb negb] in Hin. go_simpl in Hin.
        destruct (ParseDuration rt arg) as [d [e' |]] eqn:Hd;
          cbn [isNil] in Hin; rewrite ?limit_is_min in Hin;
          destruct (d =? 0); go_simpl in Hin;
          destruct (Between sequence _ _ _) as [[items hit] err];
          cbn [snd] in Hin; in_trace Hin; injection Hin as _ _ <-;
          reflexivity.
      + cbn [isNil andb] in Hin.
        destruct (c =? 0); cbn [negb] in Hin;
          rewrite ?limit_is_min in Hin; cbn [Z.eqb] in Hin;
          destruct (Between sequence _ _ _) as [[items hit] err];
          cbn [snd] in Hin; in_trace Hin; injection Hin as _ _ <-;
          reflexivity. }
  split; [| exact Hpath].
  rewrite Hpath.
  destruct (nth_error params 1) as [arg |]; [| lia].
  destruct (Atoi rt arg) as [c [e |]].
  - destruct (ParseDuration rt arg) as [d [e' |]]; lia.
  - destruct (c =? 0); lia.
Qed.

Lemma limit_bounded_witness :
  let tr := snd (run (easySelectHistory Sample.runtime Sample.server
                        Sample.alice ["#general"; "5"])) in
  let maxLimit := History_ChathistoryMax (Config_ Sample.server) in
  In (EvBetween history.emptySelector history.emptySelector 5) tr /\
  5 <= maxLimit /\
  5 = Z.min 5 maxLimit.
Proof.
  assert (Hin : In (EvBetween history.emptySelector history.emptySelector 5)
                   (snd (run (easySelectHistory Sample.runtime Sample.server
                                Sample.alice ["#general"; "5"])))).
  { vm_compute. right. right. left. reflexivity. }
  split; [exact Hin |].
  exact (limit_bounded Sample.runtime Sample.server Sample.alice
           ["#general"; "5"] history.emptySelector history.emptySelector
           5 Hin).
Defined.

(** C5.  When the second argument parses as an integer [c > 0], the one
    query that [easySelectHistory] issues has empty start and end selectors
    and the limit [min(c, maxLimit)]. *)
Theorem positive_count_limit (rt : Runtime) (server : Server)
    (client : Client) (target arg : string) (rest : list string)
    (channel : option Channel) (sequence : Sequence) (c : Z) :
  GetHistorySequence server client (historyTarget target)
  = (channel, Some sequence, None) ->
  Atoi rt arg = (c, None) ->
  0 < c ->
  let maxLimit := History_ChathistoryMax (Config_ server) in
  run (easySelectHistory rt server client (target :: arg :: rest))
  = (unconstrained channel sequence (Z.min c maxLimit),
     [EvGetHistorySequence (historyTarget target);
      EvAtoi arg;
      EvBetween history.emptySelector history.emptySelector
                (Z.min c maxLimit)]).
Proof.
  intros Hfound Hc Hpos maxLimit.
  apply easySelectHistory_count; [assumption | assumption | lia].
Qed.

Lemma positive_count_limit_witness :
  run (easySelectHistory Sample.runtime Sample.server Sample.alice
         ["#general"; "250"])
  = (Done (Sample.items, Some Sample.general, None),
     [EvGetHistorySequence "#general";
      EvAtoi "250";
      EvBetween history.emptySelector history.emptySelector 200]).
Proof.
  apply (positive_count_limit Sample.runtime Sample.server Sample.alice
           "#general" "250" [] (Some Sample.general) Sample.sequence 250).
  - reflexivity.
  - reflexivity.
  - lia.
Defined.

(** C10.  When the second argument parses as an integer [c < 0] and the
    configured maximum is not negative, [c] itself is the limit: the query
    has empty selectors and the limit [c], and [ParseDuration] is not
    called. *)
Theorem negative_count_limit (rt : Runtime) (server : Server)
    (client : Client) (target arg : string) (rest : list string)
    (channel : option Channel) (sequence : Sequence) (c : Z) :
  GetHistorySequence server client (historyTarget target)
  = (channel, Some sequence, None) ->
  Atoi rt arg = (c, None) ->
  c < 0 ->
  0 <= History_ChathistoryMax (Config_ server) ->
  let tr := [EvGetHistorySequence (historyTarget target);
             EvAtoi arg;
             EvBetween history.emptySelector history.emptySelector c] in
  run (easySelectHistory rt server client (target :: arg :: rest))
  = (unconstrained channel sequence c, tr) /\
  ~ In (EvParseDuration arg) tr.
Proof.
  intros Hfound Hc Hneg Hmax tr. split.
  - rewrite (easySelectHistory_count rt server client target arg rest
               channel sequence Hfound c Hc) by lia.
    subst tr. rewrite Z.min_l by lia. reflexivity.
  - intros Hin. subst tr. in_trace Hin.
Qed.

Lemma negative_count_limit_witness :
  run (easySelectHistory Sample.runtime Sample.server Sample.alice
         ["#general"; "-5"])
  = (Done (Sample.items, Some Sample.general, None),
     [EvGetHistorySequence "#general";
      EvAtoi "-5";
      EvBetween history.emptySelector history.emptySelector (-5)]).
Proof.
  apply (negative_count_limit Sample.runtime Sample.server Sample.alice
           "#general" "-5" [] (Some Sample.general) Sample.sequence (-5)).
  - reflexivity.
  - reflexivity.
  - lia.
  - vm_compute. discriminate.
Defined.

(** C3, as the code has it.  When the second argument parses as the integer
    zero, it is not taken as a count and [ParseDuration] is not called: the
    query has empty selectors and the default limit, the minimum of 100 and
    the configured maximum. *)
Theorem zero_count_keeps_default (rt : Runtime) (server : Server)
    (client : Client) (target arg : string) (rest : list string)
    (channel : option Channel) (sequence : Sequence) :
  GetHistorySequence server client (historyTarget target)
  = (channel, Some sequence, None) ->
  Atoi rt arg = (0, None) ->
  let maxLimit := History_ChathistoryMax (Config_ server) in
  let tr := [EvGetHistorySequence (historyTarget target);
             EvAtoi arg;
             EvBetween history.emptySelector history.emptySelector
                       (Z.min 100 maxLimit)] in
  run (easySelectHistory rt server client (target :: arg :: rest))
  = (unconstrained channel sequence (Z.min 100 maxLimit), tr) /\
  ~ In (EvParseDuration arg) tr.
Proof.
  intros Hfound Hc maxLimit tr. split.
  - apply easySelectHistory_zero; assumption.
  - intros Hin. subst tr. in_trace Hin.
Qed.

Lemma zero_count_keeps_default_witness :
  run (easySelectHistory Sample.runtime Sample.server Sample.alice
         ["#general"; "0"])
  = (Done (Sample.items, Some Sample.general, None),
     [EvGetHistorySequence "#general";
      EvAtoi "0";
      EvBetween history.emptySelector history.emptySelector 100]).
Proof.
  apply (zero_count_keeps_default Sample.runtime Sample.server Sample.alice
           "#general" "0" [] (Some Sample.general) Sample.sequence).
  - reflexivity.
  - reflexivity.
Defined.

(** C3, as the claim words it, fails on the argument ["0"] with a maximum of
    200: the argument parses as the integer zero and as the zero duration,
    yet [ParseDuration] is not called and no query has the limit 200. *)
Lemma zero_count_no_fallthrough :
  let tr := snd (run (easySelectHistory Sample.runtime Sample.server
                        Sample.alice ["#general"; "0"])) in
  Atoi Sample.runtime "0" = (0, None) /\
  ParseDuration Sample.runtime "0" = (0, None) /\
  History_ChathistoryMax (Config_ Sample.server) = 200 /\
  ~ In (EvParseDuration "0") tr /\
  ~ (exists start end_, In (EvBetween start end_ 200) tr).
Proof.
  cbv zeta. repeat split; try reflexivity.
  - intros H. vm_compute in H. intuition discriminate.
  - intros (start & end_ & H). vm_compute in H. intuition discriminate.
Qed.

(** C6.  With Go's [strconv.Atoi] and [time.ParseDuration]: when the second
    argument does not parse as an integer other than zero and parses as a
    duration [d > 0], the query runs from the selector at [now] back to the
    selector at [now - d], with the configured maximum as its limit. *)
Theorem duration_window (rt : Runtime) (fraction : Z -> Z -> Z -> Z)
    (server : Server) (client : Client) (target arg : string)
    (rest : list string) (channel : option Channel) (sequence : Sequence)
    (d : time.Duration) :
  Atoi rt = strconv.Atoi ->
  ParseDuration rt = time.ParseDuration fraction ->
  GetHistorySequence server client (historyTarget target)
  = (channel, Some sequence, None) ->
  (forall c, strconv.Atoi arg = (c, None) -> c = 0) ->
  time.ParseDuration fraction arg = (d, None) ->
  0 < d ->
  let maxLimit := History_ChathistoryMax (Config_ server) in
  let start := history.atTime (Now rt) in
  let end_ := history.atTime (Now rt - d) in
  run (easySelectHistory rt server client (target :: arg :: rest))
  = (window channel sequence start end_ maxLimit,
     [EvGetHistorySequence (historyTarget target);
      EvAtoi arg;
      EvParseDuration arg;
      EvNow;
      EvBetween start end_ maxLimit]).
Proof.
  intros HAtoi HParse Hfound Hcount Hd Hpos maxLimit start end_.
  destruct (strconv.Atoi arg) as [c [e |]] eqn:Hc.
  - assert (Hneg : time.neg d = - d).
    { apply neg_positive. apply ParseDuration_range in Hd. lia. }
    rewrite (easySelectHistory_duration rt server client target arg rest
               channel sequence Hfound c e d).
    + unfold time.Add. rewrite Hneg. reflexivity.
    + rewrite HAtoi. exact Hc.
    + rewrite HParse. exact Hd.
    + lia.
  - pose proof (Atoi_accepts_no_duration fraction arg c d Hc Hd). lia.
Qed.

Lemma duration_window_witness :
  run (easySelectHistory Sample.runtime Sample.server Sample.alice
         ["mychannel"; "10m"])
  = (Done (Sample.items, Some Sample.general, None),
     [EvGetHistorySequence "mychannel";
      EvAtoi "10m";
      EvParseDuration "10m";
      EvNow;
      EvBetween (history.atTime (Now Sample.runtime))
                (history.atTime (Now Sample.runtime - 600000000000))
                200]).
Proof.
  apply (duration_window Sample.runtime Sample.fraction Sample.server
           Sample.alice "mychannel" "10m" [] (Some Sample.general)
           Sample.sequence 600000000000).
  - reflexivity.
  - reflexivity.
  - reflexivity.
  - intros c H. vm_compute in H. discriminate H.
  - reflexivity.
  - lia.
Defined.

(** [easySelectHistory] sends no notice. *)
Lemma easySelectHistory_silent (rt : Runtime) (server : Server)
    (client : Client) (params : list string) :
  notices (snd (run (easySelectHistory rt server client params))) = [].
Proof.
  unfold easySelectHistory.
  destruct params as [| target rest]; [reflexivity |].
  destruct rest as [| arg rest];
    [rewrite len_one | rewrite len_two_or_more];
    go_simpl;
    destruct (GetHistorySequence server client (historyTarget target))
      as [[channel [sequence |]] [err |]];
    go_simpl; try reflexivity.
  - cbn [Z.eqb].
    destruct (Between sequence _ _ _) as [[items hit] err]. reflexivity.
  - destruct (Atoi rt arg) as [c [e |]].
    + cbn [isNil andb negb]. go_simpl.
      destruct (ParseDuration rt arg) as [d [e' |]];
        destruct (d =? 0); go_simpl;
        destruct (Between sequence _ _ _) as [[items hit] err];
        reflexivity.
    + cbn [isNil andb].
      destruct (c =? 0); cbn [negb Z.eqb];
        destruct (Between sequence _ _ _) as [[items hit] err];
        reflexivity.
Qed.

(** ** histservPlayHandler *)

(** A loop whose body only appends to the trace. *)
Lemma forRange_trace {A : Type} (body : A -> M unit) (f : A -> list Event) :
  (forall x tr, body x tr = (Done tt, tr ++ f x)) ->
  forall l tr, forRange l body tr = (Done tt, tr ++ flat_map f l).
Proof.
  intros Hbody l.
  induction l as [| x l IH]; intros tr; cbn [forRange flat_map].
  - unfold ret. rewrite app_nil_r. reflexivity.
  - unfold bind. rewrite Hbody, IH, app_assoc. reflexivity.
Qed.

Lemma flat_map_singleton {A B : Type} (g : A -> B) (l : list A) :
  flat_map (fun x => [g x]) l = map g l.
Proof.
  induction l as [| x l IH]; cbn [flat_map map app];
    [reflexivity | f_equal; exact IH].
Qed.

Lemma playMessage_trace (rt : Runtime) (item : history.Item)
    (message : string) (tr : list Event) :
  playMessage rt (utils.Time (history.Message item)) (history.Nick item)
              message tr
  = (Done tt, tr ++ [line rt item message]).
Proof.
  reflexivity.
Qed.

(** The body of the loop over the items plays what [rendered] lists. *)
Lemma play_item (rt : Runtime) (item : history.Item) (tr : list Event) :
  (if (negb (history.ItemType_eqb (history.Type_ item) history.Privmsg)
       && negb (history.ItemType_eqb (history.Type_ item) history.Notice))%bool
   then ret tt
   else
     match utils.Split (history.Message item) with
     | [] =>
         playMessage rt (utils.Time (history.Message item))
                     (history.Nick item)
                     (utils.Message (history.Message item))
     | split =>
         forRange split (fun pair =>
           playMessage rt (utils.Time (history.Message item))
                       (history.Nick item)
                       (utils.PairMessage pair))
     end) tr
  = (Done tt, tr ++ rendered rt item).
Proof.
  unfold rendered, eligible.
  assert (Hparts : forall split tr',
             forRange split (fun pair =>
               playMessage rt (utils.Time (history.Message item))
                           (history.Nick item)
                           (utils.PairMessage pair)) tr'
             = (Done tt,
                tr' ++ map (fun pair =>
                              line rt item (utils.PairMessage pair)) split)).
  { intros split tr'.
    rewrite (forRange_trace _ (fun pair =>
               [line rt item (utils.PairMessage pair)])).
    - rewrite flat_map_singleton. reflexivity.
    - intros pair tr''. apply playMessage_trace. }
  destruct (history.Type_ item); cbn [history.ItemType_eqb negb andb].
  - destruct (utils.Split (history.Message item)) as [| p split] eqn:Hs.
    + apply playMessage_trace.
    + apply Hparts.
  - destruct (utils.Split (history.Message item)) as [| p split] eqn:Hs.
    + apply playMessage_trace.
    + apply Hparts.
  - unfold ret. rewrite app_nil_r. reflexivity.
Qed.

Lemma notices_rendered (rt : Runtime) (items : list history.Item) :
  notices (flat_map (rendered rt) items) = flat_map (rendered rt) items.
Proof.
  unfold notices.
  induction items as [| item items IH]; [reflexivity |].
  cbn [flat_map]. rewrite filter_app, IH. f_equal.
  unfold rendered.
  destruct (eligible item); [| reflexivity].
  destruct (utils.Split (history.Message item)) as [| p parts];
    [reflexivity |].
  generalize (p :: parts). intros l.
  induction l as [| q l IHl]; [reflexivity |].
  cbn [map filter line isNotice]. f_equal. exact IHl.
Qed.

(** C7.  Once the items are retrieved, the notices of [histservPlayHandler]
    are the lines of the items in order and then the line "End of history
    playback".  [N] items of kind message or notice without split parts give
    [N + 1] notices; an item of kind message or notice with [k] split parts
    gives [k] lines, each under the time and the sender of the item; an item
    of another kind gives no line; and the last line is sent even when no
    item gave one. *)
Theorem playback_lines (rt : Runtime) (server : Server) (client : Client)
    (command : string) (params : list string) (items : list history.Item)
    (channel : option Channel) (tr0 : list Event) :
  run (easySelectHistory rt server client params)
  = (Done (items, channel, None), tr0) ->
  let endLine := EvNotice (Plain (t client "End of history playback")) in
  let played := run (histservPlayHandler rt server client command params) in
  let lines := notices (snd played) in
  played = (Done tt, tr0 ++ flat_map (rendered rt) items ++ [endLine]) /\
  lines = flat_map (rendered rt) items ++ [endLine] /\
  ((forall item, In item items ->
      eligible item = true /\ utils.Split (history.Message item) = []) ->
   List.length lines = S (List.length items)) /\
  (forall item,
      eligible item = true ->
      utils.Split (history.Message item) <> [] ->
      rendered rt item
      = map (fun pair => line rt item (utils.PairMessage pair))
            (utils.Split (history.Message item)) /\
      List.length (rendered rt item)
      = List.length (utils.Split (history.Message item))) /\
  (forall item, eligible item = false -> rendered rt item = []) /\
  (flat_map (rendered rt) items = [] -> lines = [endLine]).
Proof.
  intros Hsel endLine played lines.
  assert (Hplayed :
    played = (Done tt, tr0 ++ flat_map (rendered rt) items ++ [endLine])).
  { subst played. unfold histservPlayHandler, run, bind at 1.
    unfold run in Hsel. rewrite Hsel.
    unfold bind. rewrite (forRange_trace _ (rendered rt)).
    - unfold notice, call. rewrite <- app_assoc. reflexivity.
    - intros item tr. apply play_item. }
  assert (Hlines : lines = flat_map (rendered rt) items ++ [endLine]).
  { subst lines. rewrite Hplayed. cbn [snd].
    pose proof (easySelectHistory_silent rt server client params) as Hsilent.
    rewrite Hsel in Hsilent. cbn [snd] in Hsilent.
    unfold notices in *. rewrite !filter_app, Hsilent.
    fold (notices (flat_map (rendered rt) items)).
    rewrite notices_rendered. reflexivity. }
  assert (Hsplit : forall item,
    eligible item = true ->
    utils.Split (history.Message item) <> [] ->
    rendered rt item
    = map (fun pair => line rt item (utils.PairMessage pair))
          (utils.Split (history.Message item))).
  { intros item He Hs. unfold rendered. rewrite He.
    destruct (utils.Split (history.Message item)); [contradiction |].
    reflexivity. }
  repeat split.
  - exact Hplayed.
  - exact Hlines.
  - intros Hall. rewrite Hlines, length_app. cbn [List.length].
    rewrite Nat.add_1_r. f_equal.
    clear Hsel Hplayed Hlines lines played.
    induction items as [| item items' IH]; [reflexivity |].
    cbn [flat_map]. rewrite length_app, IH.
    + destruct (Hall item (or_introl eq_refl)) as [He Hs].
      unfold rendered. rewrite He, Hs. reflexivity.
    + intros item' Hin. apply Hall. right. exact Hin.
  - apply Hsplit; assumption.
  - rewrite Hsplit by assumption. apply length_map.
  - intros item He. unfold rendered. rewrite He. reflexivity.
  - intros Hnone. rewrite Hlines, Hnone. reflexivity.
Qed.

Lemma playback_lines_witness :
  run (histservPlayHandler Sample.runtime Sample.server Sample.alice
         "play" ["#general"])
  = (Done tt,
     [EvGetHistorySequence "#general";
      EvBetween history.emptySelector history.emptySelector 100;
      EvNotice (Sprintf "%s <%s> %s" ["15:04:05"; "alice"; "hello"]);
      EvNotice (Sprintf "%s <%s> %s" ["15:04:05"; "bob"; "a long "]);
      EvNotice (Sprintf "%s <%s> %s" ["15:04:05"; "bob"; "notice"]);
      EvNotice (Plain "End of history playback")]).
Proof.
  apply (playback_lines Sample.runtime Sample.server Sample.alice "play"
           ["#general"] Sample.items (Some Sample.general)
           [EvGetHistorySequence "#general";
            EvBetween history.emptySelector history.emptySelector 100]).
  reflexivity.
Defined.

(** ** histservDeleteHandler *)

Section Delete.

Variables (server : Server) (client : Client) (command : string).
Variables (params : list string) (target msgid : string).

Hypothesis shape : deleteParams params target msgid.

Let reply : string -> Event := deleteReply server client target msgid.

(** The whole of the handler: which account name it settles on, and what
    it does with it. *)
Lemma histservDeleteHandler_run :
  run (histservDeleteHandler server client command params)
  = (Done tt,
     if HasRoleCapabs client "history" then
       [EvDeleteMessage target msgid "*"; reply "*"]
     else if History_Retention_AllowIndividualDelete (Config_ server) then
       if isChannelOperator server client target then
         [EvDeleteMessage target msgid "*"; reply "*"]
       else if String.eqb (AccountName client) "*" then denied client
       else [EvDeleteMessage target msgid (AccountName client);
             reply (AccountName client)]
     else denied client).
Proof.
  unfold histservDeleteHandler, isChannelOperator, denied, reply,
    deleteReply.
  assert (Hargs :
    run (if len params =? 1 then
           m <- index params 0 ;; ret ("", m)
         else
           a <- index params 0 ;; m <- index params 1 ;; ret (a, m))
    = (Done (target, msgid), [])).
  { destruct shape as [[-> ->] | [rest ->]].
    - reflexivity.
    - replace (len (target :: msgid :: rest) =? 1) with false.
      + reflexivity.
      + symmetry. apply Z.eqb_neq. unfold len. cbn [List.length]. lia. }
  unfold run in *. unfold bind at 1. rewrite Hargs.
  destruct (HasRoleCapabs client "history"); cbn [negb andb].
  - unfold bind, call, notice.
    destruct (DeleteMessage server target msgid "*"); reflexivity.
  - destruct (History_Retention_AllowIndividualDelete (Config_ server)).
    + destruct (channels_Get server target) as [channel |].
      * destruct (ClientIsAtLeast channel client modes.Operator);
          cbn [negb andb].
        -- unfold bind, call, notice.
           destruct (DeleteMessage server target msgid "*"); reflexivity.
        -- destruct (String.eqb (AccountName client) "*"); [reflexivity |].
           unfold bind, call, notice.
           destruct (DeleteMessage server target msgid _); reflexivity.
      * cbn [negb andb].
        destruct (String.eqb (AccountName client) "*"); [reflexivity |].
        unfold bind, call, notice.
        destruct (DeleteMessage server target msgid _); reflexivity.
    + reflexivity.
Qed.

End Delete.

Lemma deleteReply_notice (server : Server) (client : Client)
    (target msgid accountName : string) :
  exists text, deleteReply server client target msgid accountName
               = EvNotice text.
Proof.
  unfold deleteReply.
  destruct (DeleteMessage server target msgid accountName);
    [destruct (HasRoleCapabs client "history") |]; eexists; reflexivity.
Qed.

Lemma storeCalls_permitted (server : Server) (client : Client)
    (target msgid accountName : string) :
  storeCalls [EvDeleteMessage target msgid accountName;
              deleteReply server client target msgid accountName]
  = [(target, msgid, accountName)].
Proof.
  destruct (deleteReply_notice server client target msgid accountName)
    as [text ->].
  reflexivity.
Qed.

(** C1.  The decision of [histservDeleteHandler].  A client with the role
    capability "history" deletes under the author constraint "*".  Any other
    client is denied when individual deletion is off: a notice, and no call
    of the store.  When it is on, an operator of the target channel deletes
    under "*", and a client who is no such operator but has an account name
    other than "*" deletes under that very name.  A denied request never
    reaches [server.DeleteMessage]: the handler either sends the one notice
    of denial, or calls the store once and then sends one notice. *)
Theorem delete_authorization (server : Server) (client : Client)
    (command : string) (params : list string) (target msgid : string) :
  deleteParams params target msgid ->
  let result := run (histservDeleteHandler server client command params) in
  let tr := snd result in
  let isOper := HasRoleCapabs client "history" in
  let allowed := History_Retention_AllowIndividualDelete (Config_ server) in
  let isChanop := isChannelOperator server client target in
  fst result = Done tt /\
  (isOper = true -> storeCalls tr = [(target, msgid, "*")]) /\
  (isOper = false -> allowed = false ->
   tr = denied client) /\
  (isOper = false -> allowed = true -> isChanop = true ->
   storeCalls tr = [(target, msgid, "*")]) /\
  (isOper = false -> allowed = true -> isChanop = false ->
   AccountName client <> "*" ->
   storeCalls tr = [(target, msgid, AccountName client)]) /\
  (isOper = false -> allowed = true -> isChanop = false ->
   AccountName client = "*" ->
   tr = denied client) /\
  (tr = denied client \/
   exists accountName text,
     tr = [EvDeleteMessage target msgid accountName; EvNotice text]) /\
  storeCalls (denied client) = [].
Proof.
  intros shape result tr isOper allowed isChanop.
  subst result tr.
  rewrite (histservDeleteHandler_run server client command params target
             msgid shape).
  cbn [fst snd]. fold isOper allowed isChanop.
  assert (Hcall : forall accountName,
    exists a text,
      [EvDeleteMessage target msgid accountName;
       deleteReply server client target msgid accountName]
      = [EvDeleteMessage target msgid a; EvNotice text]).
  { intros accountName.
    destruct (deleteReply_notice server client target msgid accountName)
      as [text ->].
    exists accountName, text. reflexivity. }
  split; [reflexivity |].
  destruct isOper, allowed, isChanop;
    try (destruct (String.eqb_spec (AccountName client) "*") as [Hacc | Hacc]);
    repeat split; intros; try discriminate; try contradiction;
    try apply storeCalls_permitted; try reflexivity;
    try (right; apply Hcall); try (left; reflexivity).
Qed.

Lemma delete_authorization_witness :
  storeCalls (snd (run (histservDeleteHandler Sample.server Sample.chanop
                          "delete" ["#general"; "abc123"])))
  = [("#general", "abc123", "*")] /\
  snd (run (histservDeleteHandler Sample.strictServer Sample.chanop
              "delete" ["#general"; "abc123"]))
  = [EvNotice (Plain "Insufficient privileges")].
Proof.
  split.
  - destruct (delete_authorization Sample.server Sample.chanop "delete"
                ["#general"; "abc123"] "#general" "abc123")
      as (_ & _ & _ & H & _).
    + right. exists []. reflexivity.
    + apply H; reflexivity.
  - destruct (delete_authorization Sample.strictServer Sample.chanop "delete"
                ["#general"; "abc123"] "#general" "abc123")
      as (_ & _ & H & _).
    + right. exists []. reflexivity.
    + apply H; reflexivity.
Defined.

(** C9.  When [server.DeleteMessage] returns an error, a client with the
    role capability "history" is sent the notice formatted from "Error
    deleting message: %v" and the error, and any other client, an operator
    of the channel included, is sent "Could not delete message", whatever the
    error. *)
Theorem delete_failure_notice (server : Server) (client : Client)
    (command : string) (params : list string)
    (target msgid accountName : string) (err : error) :
  deleteParams params target msgid ->
  let tr := snd (run (histservDeleteHandler server client command params)) in
  In (EvDeleteMessage target msgid accountName) tr ->
  DeleteMessage server target msgid accountName = Some err ->
  (HasRoleCapabs client "history" = true ->
   tr = [EvDeleteMessage target msgid "*";
         EvNotice (Sprintf (t client "Error deleting message: %v") [err])]) /\
  (HasRoleCapabs client "history" = false ->
   tr = [EvDeleteMessage target msgid accountName;
         EvNotice (Plain (t client "Could not delete message"))]).
Proof.
  intros shape tr. subst tr.
  rewrite (histservDeleteHandler_run server client command params target
             msgid shape).
  cbn [snd].
  assert (Hreply : forall a,
    In (EvDeleteMessage target msgid accountName)
       [EvDeleteMessage target msgid a;
        deleteReply server client target msgid a] ->
    a = accountName).
  { intros a Hin.
    destruct (deleteReply_notice server client target msgid a) as [text Ht].
    rewrite Ht in Hin. in_trace Hin. injection Hin as ->. reflexivity. }
  assert (Hdenied :
    ~ In (EvDeleteMessage target msgid accountName) (denied client)).
  { intros Hin. unfold denied in Hin. in_trace Hin. }
  intros Hin Herr.
  destruct (HasRoleCapabs client "history") eqn:Hoper.
  - apply Hreply in Hin. subst accountName.
    split; [intros _ | discriminate].
    unfold deleteReply. rewrite Herr, Hoper. reflexivity.
  - split; [discriminate | intros _].
    assert (Hgeneric : forall a,
      a = accountName ->
      [EvDeleteMessage target msgid a;
       deleteReply server client target msgid a]
      = [EvDeleteMessage target msgid accountName;
         EvNotice (Plain (t client "Could not delete message"))]).
    { intros a ->. unfold deleteReply. rewrite Herr, Hoper. reflexivity. }
    destruct (History_Retention_AllowIndividualDelete (Config_ server));
      [| contradiction].
    destruct (isChannelOperator server client target).
    + apply Hgeneric, Hreply, Hin.
    + destruct (String.eqb (AccountName client) "*"); [contradiction |].
      apply Hgeneric, Hreply, Hin.
Qed.

Lemma delete_failure_notice_witness :
  snd (run (histservDeleteHandler Sample.server Sample.admin "delete"
              ["#general"; "zzz999"]))
  = [EvDeleteMessage "#general" "zzz999" "*";
     EvNotice (Sprintf "Error deleting message: %v" ["no such message"])] /\
  snd (run (histservDeleteHandler Sample.server Sample.chanop "delete"
              ["#general"; "zzz999"]))
  = [EvDeleteMessage "#general" "zzz999" "*";
     EvNotice (Plain "Could not delete message")].
Proof.
  split.
  - destruct (delete_failure_notice Sample.server Sample.admin "delete"
                ["#general"; "zzz999"] "#general" "zzz999" "*"
                "no such message") as [H _].
    + right. exists []. reflexivity.
    + left. reflexivity.
    + reflexivity.
    + apply H. reflexivity.
  - destruct (delete_failure_notice Sample.server Sample.chanop "delete"
                ["#general"; "zzz999"] "#general" "zzz999" "*"
                "no such message") as [_ H].
    + right. exists []. reflexivity.
    + left. reflexivity.
    + reflexivity.
    + apply H. reflexivity.
Defined.

(** ** histservExportHandler and histservExportAndNotify *)

(** C2 asks that a failure of [os.Create] is reported and that the
    goroutine is not started.  The handler reports the failure and has no
    return after the notice: the [go] statement that follows runs with the
    file that [os.Create] returned with its error. *)
Theorem export_open_failure_starts_goroutine (rt : Runtime) (server : Server)
    (client : Client) (command p0 : string) (rest : list string)
    (cfAccount : string) (outfile : option os.File) (err : error) :
  CasefoldName rt p0 = (cfAccount, None) ->
  let filename :=
    (GenerateSecretToken rt ++ "-"
     ++ Format rt (IRCv3TimestampFormat rt) (Now rt) ++ ".json")%string in
  let pathname := getOutputPath (Config_ server) filename in
  Create rt pathname = (outfile, Some err) ->
  run (histservExportHandler rt server client command (p0 :: rest))
  = (Done tt,
     [EvNow;
      EvCreate pathname;
      EvNotice (Sprintf (t client "Error opening export file: %v") [err]);
      EvGo cfAccount outfile filename (Nick client)]).
Proof.
  intros Hfold filename pathname Hcreate.
  unfold histservExportHandler.
  go_simpl. rewrite Hfold. go_simpl.
  fold filename. fold pathname. rewrite Hcreate.
  reflexivity.
Qed.

Lemma export_open_failure_starts_goroutine_witness :
  run (histservExportHandler Sample.runtime Sample.server Sample.admin
         "export" ["Alice"])
  = (Done tt,
     [EvNow;
      EvCreate "/var/lib/ergo/c3VwZXJzZWNyZXQ-2006-01-02T15:04:05.000Z.json";
      EvNotice (Sprintf "Error opening export file: %v"
                        ["permission denied"]);
      EvGo "alice" None "c3VwZXJzZWNyZXQ-2006-01-02T15:04:05.000Z.json"
           "admin"]).
Proof.
  apply (export_open_failure_starts_goroutine Sample.runtime Sample.server
           Sample.admin "export" "Alice" [] "alice" None
           "permission denied").
  - reflexivity.
  - reflexivity.
Defined.

(** C8.  [histservExportAndNotify] always returns: no panic leaves it,
    whether [historyDB.Export], the notification, [writer.Flush] or
    [outfile.Close] returns or panics.  In every case [outfile.Close] is
    called exactly once.  Every panic inside the function is caught and
    logged: when any of the calls made panics there is a log entry, the one
    entry of the trace is for the latest panic, and when [historyDB.Export]
    panics and the deferred calls return it is the panic of the export;
    nothing is logged when every call returns. *)
Theorem export_closes_once (rt : Runtime) (server : Server)
    (cfAccount : string) (outfile : option os.File)
    (filename alertNick : string) :
  exists tr,
    run (histservExportAndNotify rt server cfAccount outfile filename
           alertNick)
    = (Done tt, tr) /\
    filter isClose tr = [EvClose outfile] /\
    (forall v,
        historyDB_Export server cfAccount = Panics v ->
        (exists w, In (logged rt w) tr) /\
        (Flush rt = Returns -> Close rt outfile = Returns ->
         tr = [EvExport cfAccount; EvFlush; EvClose outfile; logged rt v])) /\
    (((exists v, historyDB_Export server cfAccount = Panics v) \/
      (exists client v,
          historyDB_Export server cfAccount = Returns /\
          requester server alertNick = Some client /\
          Send rt = Panics v) \/
      (exists v, Flush rt = Panics v) \/
      (exists v, Close rt outfile = Panics v)) ->
     exists w, In (logged rt w) tr) /\
    filter isLogError tr
    = match Close rt outfile with
      | Panics v => [logged rt v]
      | Returns =>
          match Flush rt with
          | Panics v => [logged rt v]
          | Returns =>
              match historyDB_Export server cfAccount with
              | Panics v => [logged rt v]
              | Returns =>
                  match requester server alertNick, Send rt with
                  | Some _, Panics v => [logged rt v]
                  | _, _ => []
                  end
              end
          end
      end.
Proof.
  unfold histservExportAndNotify, requester, run, deferRecover, defer, bind,
    callOutcome, call, ret, logged.
  destruct (historyDB_Export server cfAccount) as [| v] eqn:Hexport.
  - destruct (clients_Get server alertNick) as [client |];
      [destruct (HasRoleCapabs client "history");
       [destruct (Send rt) as [| vs] |] |];
      destruct (Flush rt) as [| vf], (Close rt outfile) as [| vc];
      eexists;
      (split; [reflexivity |
       split; [reflexivity |
       split; [discriminate |
       split; [| reflexivity]]]]);
      intros Hpanic;
      try (eexists; cbn [app In]; eauto 8; fail);
      exfalso;
      destruct Hpanic
        as [[v H] | [(c & v & _ & H1 & H2) | [[v H] | [v H]]]];
      discriminate.
  - destruct (Flush rt) as [| vf], (Close rt outfile) as [| vc];
      eexists;
      (split; [reflexivity |
       split; [reflexivity |
       split; [| split; [| reflexivity]]]]);
      try (intros _; eexists; cbn [app In]; eauto 8; fail);
      intros v' Hv; injection Hv as <-;
      (split; [eexists; cbn [app In]; eauto 8 |]);
      intros Hf Hc; try discriminate; reflexivity.
Qed.

Example export_panic_run :
  run (histservExportAndNotify Sample.runtime Sample.server "alice" None
         "c3VwZXJzZWNyZXQ.json" "admin")
  = (Done tt,
     [EvExport "alice";
      EvFlush;
      EvClose None;
      logged Sample.runtime "nil pointer dereference"]).
Proof.
  reflexivity.
Qed.

(** * Further properties *)

(** ** easySelectHistory: lookup, defaults and durations *)

(** X1.  When [GetHistorySequence] returns no sequence, or an error, the
    answer is [errNoSuchChannel] without items or channel, and nothing else
    is called: the arguments are not parsed and the store is not queried. *)
Theorem easySelectHistory_no_sequence (rt : Runtime) (server : Server)
    (client : Client) (target : string) (rest : list string)
    (channel : option Channel) (sequence : option Sequence)
    (err : option error) :
  GetHistorySequence server client (historyTarget target)
  = (channel, sequence, err) ->
  sequence = None \/ err <> None ->
  run (easySelectHistory rt server client (target :: rest))
  = (Done ([], None, Some (errNoSuchChannel rt)),
     [EvGetHistorySequence (historyTarget target)]).
Proof.
  intros Hget Hnone.
  unfold easySelectHistory. go_simpl. rewrite Hget.
  destruct sequence as [sequence |], err as [err |]; try reflexivity.
  destruct Hnone as [H | H]; [discriminate | contradiction].
Qed.

Lemma easySelectHistory_no_sequence_witness :
  run (easySelectHistory Sample.runtime Sample.server Sample.alice
         ["#nowhere"; "10m"])
  = (Done ([], None, Some "No such channel"),
     [EvGetHistorySequence "#nowhere"]).
Proof.
  apply (easySelectHistory_no_sequence Sample.runtime Sample.server
           Sample.alice "#nowhere" ["10m"] None None None).
  - reflexivity.
  - left. reflexivity.
Defined.

(** X2.  A target that is "me" in any letter case is the target "*": with
    either, [easySelectHistory] and [histservPlayHandler] do and answer the
    same. *)
Theorem me_is_star (rt : Runtime) (server : Server) (client : Client)
    (command target : string) (rest : list string) :
  strings.ToLower target = "me" ->
  run (easySelectHistory rt server client (target :: rest))
  = run (easySelectHistory rt server client ("*" :: rest)) /\
  run (histservPlayHandler rt server client command (target :: rest))
  = run (histservPlayHandler rt server client command ("*" :: rest)).
Proof.
  intros Hme.
  assert (Hsel : forall tr,
             easySelectHistory rt server client (target :: rest) tr
             = easySelectHistory rt server client ("*" :: rest) tr).
  { intros tr. unfold easySelectHistory, bind, index.
    cbn [nth_error]. unfold ret.
    assert (Ht : historyTarget target = historyTarget "*").
    { unfold historyTarget. rewrite Hme. reflexivity. }
    rewrite Ht. reflexivity. }
  split.
  - apply Hsel.
  - unfold histservPlayHandler, run, bind at 1 3. rewrite Hsel. reflexivity.
Qed.

Lemma me_is_star_witness :
  run (easySelectHistory Sample.runtime Sample.server Sample.alice
         ["Me"; "5"])
  = run (easySelectHistory Sample.runtime Sample.server Sample.alice
           ["*"; "5"]).
Proof.
  apply (me_is_star Sample.runtime Sample.server Sample.alice "play" "Me"
           ["5"]).
  reflexivity.
Defined.

Section Defaults.

Variable rt : Runtime.
Variables (server : Server) (client : Client).
Variables (target arg : string) (rest : list string).
Variables (channel : option Channel) (sequence : Sequence).

Hypothesis found :
  GetHistorySequence server client (historyTarget target)
  = (channel, Some sequence, None).

Let maxLimit : Z := History_ChathistoryMax (Config_ server).

(** [Atoi] rejects the second argument and [ParseDuration] leaves the
    duration at zero. *)
Lemma easySelectHistory_no_duration (c : Z) (e : error)
    (e' : option error) :
  Atoi rt arg = (c, Some e) ->
  ParseDuration rt arg = (0, e') ->
  let limit := if isNil e' then maxLimit else Z.min 100 maxLimit in
  run (easySelectHistory rt server client (target :: arg :: rest))
  = (unconstrained channel sequence limit,
     [EvGetHistorySequence (historyTarget target);
      EvAtoi arg;
      EvParseDuration arg;
      EvBetween history.emptySelector history.emptySelector limit]).
Proof.
  intros Hc Hd limit.
  unfold easySelectHistory, unconstrained.
  rewrite len_two_or_more.
  go_simpl. rewrite found. go_simpl. rewrite Hc.
  cbn [isNil andb negb]. go_simpl. rewrite Hd.
  rewrite limit_is_min. cbn [Z.eqb].
  fold maxLimit. fold limit.
  destruct (Between sequence _ _ _) as [[items hit] err].
  reflexivity.
Qed.

End Defaults.

(** [ParseDuration] returns the zero duration with every error. *)
Lemma ParseDuration_error_zero (fraction : Z -> Z -> Z -> Z) (s : string)
    (d : time.Duration) (e : error) :
  time.ParseDuration fraction s = (d, Some e) -> d = 0.
Proof.
  unfold time.ParseDuration.
  destruct (strconv.signOf s) as [neg body].
  destruct (String.eqb body "0"); [discriminate |].
  destruct body as [| a b].
  - intros H. injection H as <- _. reflexivity.
  - destruct (time.terms fraction _ 0 _) as [e' | d'].
    + intros H. injection H as <- _. reflexivity.
    + destruct neg; [discriminate |].
      destruct (2 ^ 63 - 1 <? d'); [| discriminate].
      intros H. injection H as <- _. reflexivity.
Qed.

(** X3.  Without a second argument nothing is parsed: the one query has
    empty selectors and the limit [min(100, maxLimit)]. *)
Theorem default_limit (rt : Runtime) (server : Server) (client : Client)
    (target : string) (channel : option Channel) (sequence : Sequence) :
  GetHistorySequence server client (historyTarget target)
  = (channel, Some sequence, None) ->
  let limit := Z.min 100 (History_ChathistoryMax (Config_ server)) in
  run (easySelectHistory rt server client [target])
  = (unconstrained channel sequence limit,
     [EvGetHistorySequence (historyTarget target);
      EvBetween history.emptySelector history.emptySelector limit]).
Proof.
  intros Hfound limit.
  unfold easySelectHistory, unconstrained.
  rewrite len_one. go_simpl. rewrite Hfound. go_simpl.
  rewrite limit_is_min. cbn [Z.eqb]. fold limit.
  destruct (Between sequence _ _ _) as [[items hit] err].
  reflexivity.
Qed.

Lemma default_limit_witness :
  run (easySelectHistory Sample.runtime Sample.server Sample.alice
         ["#general"])
  = (Done (Sample.items, Some Sample.general, None),
     [EvGetHistorySequence "#general";
      EvBetween history.emptySelector history.emptySelector 100]).
Proof.
  apply (default_limit Sample.runtime Sample.server Sample.alice "#general"
           (Some Sample.general) Sample.sequence).
  reflexivity.
Defined.

(** X4.  With Go's [strconv.Atoi] and [time.ParseDuration]: a second
    argument that is neither an integer nor a duration changes nothing; the
    query has empty selectors and the limit [min(100, maxLimit)]. *)
Theorem malformed_argument_default (rt : Runtime)
    (fraction : Z -> Z -> Z -> Z) (server : Server) (client : Client)
    (target arg : string) (rest : list string) (channel : option Channel)
    (sequence : Sequence) :
  Atoi rt = strconv.Atoi ->
  ParseDuration rt = time.ParseDuration fraction ->
  GetHistorySequence server client (historyTarget target)
  = (channel, Some sequence, None) ->
  snd (strconv.Atoi arg) <> None ->
  snd (time.ParseDuration fraction arg) <> None ->
  let limit := Z.min 100 (History_ChathistoryMax (Config_ server)) in
  run (easySelectHistory rt server client (target :: arg :: rest))
  = (unconstrained channel sequence limit,
     [EvGetHistorySequence (historyTarget target);
      EvAtoi arg;
      EvParseDuration arg;
      EvBetween history.emptySelector history.emptySelector limit]).
Proof.
  intros HAtoi HParse Hfound Hint Hdur limit.
  destruct (strconv.Atoi arg) as [c [e |]] eqn:Hc; [| contradiction].
  destruct (time.ParseDuration fraction arg) as [d [e' |]] eqn:Hd;
    [| contradiction].
  pose proof (ParseDuration_error_zero fraction arg d e' Hd) as ->.
  apply (easySelectHistory_no_duration rt server client target arg rest
           channel sequence Hfound c e (Some e')).
  - rewrite HAtoi. exact Hc.
  - rewrite HParse. exact Hd.
Qed.

Lemma malformed_argument_default_witness :
  run (easySelectHistory Sample.runtime Sample.server Sample.alice
         ["#general"; "ten"])
  = (Done (Sample.items, Some Sample.general, None),
     [EvGetHistorySequence "#general";
      EvAtoi "ten";
      EvParseDuration "ten";
      EvBetween history.emptySelector history.emptySelector 100]).
Proof.
  apply (malformed_argument_default Sample.runtime Sample.fraction
           Sample.server Sample.alice "#general" "ten" []
           (Some Sample.general) Sample.sequence).
  - reflexivity.
  - reflexivity.
  - reflexivity.
  - vm_compute. discriminate.
  - vm_compute. discriminate.
Defined.

(** X5.  A second argument that is not an integer and parses as the zero
    duration gives no time window: the query has empty selectors, and its
    limit is the configured maximum, not [min(100, maxLimit)]. *)
Theorem zero_duration_unconstrained (rt : Runtime) (server : Server)
    (client : Client) (target arg : string) (rest : list string)
    (channel : option Channel) (sequence : Sequence) (c : Z) (e : error) :
  GetHistorySequence server client (historyTarget target)
  = (channel, Some sequence, None) ->
  Atoi rt arg = (c, Some e) ->
  ParseDuration rt arg = (0, None) ->
  let maxLimit := History_ChathistoryMax (Config_ server) in
  run (easySelectHistory rt server client (target :: arg :: rest))
  = (unconstrained channel sequence maxLimit,
     [EvGetHistorySequence (historyTarget target);
      EvAtoi arg;
      EvParseDuration arg;
      EvBetween history.emptySelector history.emptySelector maxLimit]).
Proof.
  intros Hfound Hc Hd maxLimit.
  apply (easySelectHistory_no_duration rt server client target arg rest
           channel sequence Hfound c e None Hc Hd).
Qed.

Lemma zero_duration_unconstrained_witness :
  run (easySelectHistory Sample.runtime Sample.server Sample.alice
         ["#general"; "0s"])
  = (Done (Sample.items, Some Sample.general, None),
     [EvGetHistorySequence "#general";
      EvAtoi "0s";
      EvParseDuration "0s";
      EvBetween history.emptySelector history.emptySelector 200]).
Proof.
  apply (zero_duration_unconstrained Sample.runtime Sample.server
           Sample.alice "#general" "0s" [] (Some Sample.general)
           Sample.sequence 0 strconv.ErrSyntax).
  - reflexivity.
  - reflexivity.
  - reflexivity.
Defined.

(** X6.  A second argument that is not an integer and parses as a negative
    duration [d], the least [int64] apart, gives a window that runs forward:
    from the selector at [now] to the selector at [now - d], which is later,
    with the configured maximum as the limit. *)
Theorem negative_duration_window (rt : Runtime) (server : Server)
    (client : Client) (target arg : string) (rest : list string)
    (channel : option Channel) (sequence : Sequence) (c : Z) (e : error)
    (d : time.Duration) :
  GetHistorySequence server client (historyTarget target)
  = (channel, Some sequence, None) ->
  Atoi rt arg = (c, Some e) ->
  ParseDuration rt arg = (d, None) ->
  - 2 ^ 63 < d < 0 ->
  let maxLimit := History_ChathistoryMax (Config_ server) in
  let start := history.atTime (Now rt) in
  let end_ := history.atTime (Now rt - d) in
  run (easySelectHistory rt server client (target :: arg :: rest))
  = (window channel sequence start end_ maxLimit,
     [EvGetHistorySequence (historyTarget target);
      EvAtoi arg;
      EvParseDuration arg;
      EvNow;
      EvBetween start end_ maxLimit]) /\
  history.Time start < history.Time end_.
Proof.
  intros Hfound Hc Hd Hneg maxLimit start end_. split.
  - rewrite (easySelectHistory_duration rt server client target arg rest
               channel sequence Hfound c e d Hc Hd) by lia.
    unfold time.Add, time.neg. rewrite wrap64_small by lia. reflexivity.
  - cbn [history.Time start end_ history.atTime]. lia.
Qed.

Lemma negative_duration_window_witness :
  run (easySelectHistory Sample.runtime Sample.server Sample.alice
         ["#general"; "-5m"])
  = (Done (Sample.items, Some Sample.general, None),
     [EvGetHistorySequence "#general";
      EvAtoi "-5m";
      EvParseDuration "-5m";
      EvNow;
      EvBetween (history.atTime (Now Sample.runtime))
                (history.atTime (Now Sample.runtime + 300000000000))
                200]).
Proof.
  apply (negative_duration_window Sample.runtime Sample.server Sample.alice
           "#general" "-5m" [] (Some Sample.general) Sample.sequence
           0 strconv.ErrSyntax (-300000000000)).
  - reflexivity.
  - reflexivity.
  - reflexivity.
  - lia.
Defined.

(** X7.  [easySelectHistory] queries the sequence exactly once when it has
    a first parameter and the sequence is found, and never otherwise,
    whatever the second argument is. *)
Theorem one_query (rt : Runtime) (server : Server) (client : Client)
    (params : list string) :
  List.length (queries (snd (run (easySelectHistory rt server client
                                     params))))
  = match params with
    | [] => 0%nat
    | target :: _ =>
        match GetHistorySequence server client (historyTarget target) with
        | (_, Some _, None) => 1%nat
        | _ => 0%nat
        end
    end.
Proof.
  unfold easySelectHistory.
  destruct params as [| target rest]; [reflexivity |].
  destruct rest as [| arg rest];
    [rewrite len_one | rewrite len_two_or_more];
    go_simpl;
    destruct (GetHistorySequence server client (historyTarget target))
      as [[channel [sequence |]] [err |]];
    go_simpl; try reflexivity.
  - cbn [Z.eqb].
    destruct (Between sequence _ _ _) as [[items hit] err]. reflexivity.
  - destruct (Atoi rt arg) as [c [e |]].
    + cbn [isNil andb negb]. go_simpl.
      destruct (ParseDuration rt arg) as [d [e' |]];
        destruct (d =? 0); go_simpl;
        destruct (Between sequence _ _ _) as [[items hit] err];
        reflexivity.
    + cbn [isNil andb].
      destruct (c =? 0); cbn [negb Z.eqb];
        destruct (Between sequence _ _ _) as [[items hit] err];
        reflexivity.
Qed.

(** ** histservPlayHandler: failures *)

(** X8.  When [easySelectHistory] answers with an error, whether the target
    was not found or the query of the sequence failed,
    [histservPlayHandler] sends the one notice "Could not retrieve history":
    the items that came with the error are not played and the line "End of
    history playback" is not sent. *)
Theorem playback_failure (rt : Runtime) (server : Server) (client : Client)
    (command : string) (params : list string) (items : list history.Item)
    (channel : option Channel) (e : error) (tr0 : list Event) :
  run (easySelectHistory rt server client params)
  = (Done (items, channel, Some e), tr0) ->
  let played := run (histservPlayHandler rt server client command params) in
  played
  = (Done tt, tr0 ++ [EvNotice (Plain (t client "Could not retrieve history"))])
  /\
  notices (snd played)
  = [EvNotice (Plain (t client "Could not retrieve history"))].
Proof.
  intros Hsel played.
  assert (Hplayed :
    played
    = (Done tt,
       tr0 ++ [EvNotice (Plain (t client "Could not retrieve history"))])).
  { subst played. unfold histservPlayHandler, run, bind.
    unfold run in Hsel. rewrite Hsel. reflexivity. }
  split; [exact Hplayed |].
  rewrite Hplayed. cbn [snd].
  pose proof (easySelectHistory_silent rt server client params) as Hsilent.
  rewrite Hsel in Hsilent. cbn [snd] in Hsilent.
  unfold notices in *. rewrite filter_app, Hsilent. reflexivity.
Qed.

Lemma playback_failure_witness :
  run (histservPlayHandler Sample.runtime Sample.server Sample.alice "play"
         ["#nowhere"])
  = (Done tt,
     [EvGetHistorySequence "#nowhere";
      EvNotice (Plain "Could not retrieve history")]).
Proof.
  apply (playback_failure Sample.runtime Sample.server Sample.alice "play"
           ["#nowhere"] [] None "No such channel"
           [EvGetHistorySequence "#nowhere"]).
  reflexivity.
Defined.

(** ** histservForgetHandler *)

(** X9.  [histservForgetHandler] always enqueues one account for deletion
    and confirms it under the same name: the name that the account directory
    returns, or, when that is empty, the parameter itself, after a notice
    that the name could not be looked up. *)
Theorem forget_enqueues_once (server : Server) (client : Client)
    (command p0 : string) (rest : list string) :
  let looked := accounts_AccountToAccountName server p0 in
  let accountName := if String.eqb looked "" then p0 else looked in
  let warning :=
    if String.eqb looked "" then
      [EvNotice (Plain (t client
         "Could not look up account name, proceeding anyway"))]
    else [] in
  run (histservForgetHandler server client command (p0 :: rest))
  = (Done tt,
     warning ++
     [EvForgetHistory accountName;
      EvNotice (Sprintf (t client "Enqueued account %s for message deletion")
                        [accountName])]) /\
  (p0 <> "" -> accountName <> "").
Proof.
  intros looked accountName warning. split.
  - unfold histservForgetHandler. go_simpl. fold looked.
    subst accountName warning.
    destruct (String.eqb looked ""); reflexivity.
  - intros Hp0. subst accountName.
    destruct (String.eqb_spec looked ""); assumption.
Qed.

Lemma forget_enqueues_once_example :
  run (histservForgetHandler Sample.server Sample.admin "forget" ["alice"])
  = (Done tt,
     [EvForgetHistory "alice";
      EvNotice (Sprintf "Enqueued account %s for message deletion"
                        ["alice"])]).
Proof.
  reflexivity.
Qed.

(** ** histservDeleteHandler: success, and the wildcard *)

(** X10.  When the store deletes the message, every actor who was let
    through, privileged or not, is sent "Successfully deleted message" and
    nothing more. *)
Theorem delete_success_notice (server : Server) (client : Client)
    (command : string) (params : list string)
    (target msgid accountName : string) :
  deleteParams params target msgid ->
  let tr := snd (run (histservDeleteHandler server client command params)) in
  In (EvDeleteMessage target msgid accountName) tr ->
  DeleteMessage server target msgid accountName = None ->
  tr = [EvDeleteMessage target msgid accountName;
        EvNotice (Plain (t client "Successfully deleted message"))].
Proof.
  intros shape tr. subst tr.
  rewrite (histservDeleteHandler_run server client command params target
             msgid shape).
  cbn [snd].
  intros Hin Hok.
  assert (Hcall : forall a,
    In (EvDeleteMessage target msgid accountName)
       [EvDeleteMessage target msgid a;
        deleteReply server client target msgid a] ->
    [EvDeleteMessage target msgid a;
     deleteReply server client target msgid a]
    = [EvDeleteMessage target msgid accountName;
       EvNotice (Plain (t client "Successfully deleted message"))]).
  { intros a Ha.
    destruct (deleteReply_notice server client target msgid a) as [text Ht].
    assert (a = accountName) as ->.
    { rewrite Ht in Ha. in_trace Ha. injection Ha as ->. reflexivity. }
    unfold deleteReply. rewrite Hok. reflexivity. }
  destruct (HasRoleCapabs client "history"); [apply Hcall, Hin |].
  destruct (History_Retention_AllowIndividualDelete (Config_ server));
    [| unfold denied in Hin; in_trace Hin].
  destruct (isChannelOperator server client target); [apply Hcall, Hin |].
  destruct (String.eqb (AccountName client) "*");
    [unfold denied in Hin; in_trace Hin | apply Hcall, Hin].
Qed.

Lemma delete_success_notice_witness :
  snd (run (histservDeleteHandler Sample.server Sample.alice "delete"
              ["#general"; "abc123"]))
  = [EvDeleteMessage "#general" "abc123" "alice";
     EvNotice (Plain "Successfully deleted message")].
Proof.
  apply (delete_success_notice Sample.server Sample.alice "delete"
           ["#general"; "abc123"] "#general" "abc123" "alice").
  - right. exists []. reflexivity.
  - left. reflexivity.
  - reflexivity.
Defined.

(** X11.  Every call of [server.DeleteMessage] that [histservDeleteHandler]
    makes is for the target and the msgid of the request.  Its author
    constraint is "*" only for an actor with the role capability "history"
    or, individual deletion being allowed, an operator of the target
    channel; any other constraint is the account name of the actor. *)
Theorem delete_constraint_origin (server : Server) (client : Client)
    (command : string) (params : list string) (target msgid : string)
    (target' msgid' accountName : string) :
  deleteParams params target msgid ->
  In (EvDeleteMessage target' msgid' accountName)
     (snd (run (histservDeleteHandler server client command params))) ->
  target' = target /\ msgid' = msgid /\
  (accountName = "*" ->
   HasRoleCapabs client "history" = true \/
   (History_Retention_AllowIndividualDelete (Config_ server) = true /\
    isChannelOperator server client target = true)) /\
  (accountName <> "*" ->
   accountName = AccountName client /\
   HasRoleCapabs client "history" = false).
Proof.
  intros shape.
  rewrite (histservDeleteHandler_run server client command params target
             msgid shape).
  cbn [snd].
  assert (Hcall : forall a,
    In (EvDeleteMessage target' msgid' accountName)
       [EvDeleteMessage target msgid a;
        deleteReply server client target msgid a] ->
    target' = target /\ msgid' = msgid /\ accountName = a).
  { intros a Ha.
    destruct (deleteReply_notice server client target msgid a) as [text Ht].
    rewrite Ht in Ha. in_trace Ha. injection Ha as -> -> ->. auto. }
  destruct (HasRoleCapabs client "history").
  - intros Hin. apply Hcall in Hin. destruct Hin as (-> & -> & ->).
    split; [reflexivity | split; [reflexivity | split]].
    + intros _. left. reflexivity.
    + intros Hne. contradiction.
  - destruct (History_Retention_AllowIndividualDelete (Config_ server));
      [| intros Hin; unfold denied in Hin; in_trace Hin].
    destruct (isChannelOperator server client target).
    + intros Hin. apply Hcall in Hin. destruct Hin as (-> & -> & ->).
      split; [reflexivity | split; [reflexivity | split]].
      * intros _. right. split; reflexivity.
      * intros Hne. contradiction.
    + destruct (String.eqb_spec (AccountName client) "*") as [Hacc | Hacc];
        [intros Hin; unfold denied in Hin; in_trace Hin |].
      intros Hin. apply Hcall in Hin. destruct Hin as (-> & -> & ->).
      split; [reflexivity | split; [reflexivity | split]].
      * intros Heq. contradiction.
      * intros _. split; reflexivity.
Qed.

Lemma delete_constraint_origin_witness :
  "alice" = AccountName Sample.alice /\
  HasRoleCapabs Sample.alice "history" = false.
Proof.
  destruct (delete_constraint_origin Sample.server Sample.alice "delete"
              ["#general"; "abc123"] "#general" "abc123"
              "#general" "abc123" "alice") as (_ & _ & _ & H).
  - right. exists []. reflexivity.
  - left. reflexivity.
  - apply H. discriminate.
Defined.

(** ** histservExportHandler: the other paths *)

(** X12.  When the account name does not casefold, [histservExportHandler]
    sends "Invalid account name" and stops: no file is created and no
    goroutine is started. *)
Theorem export_invalid_account (rt : Runtime) (server : Server)
    (client : Client) (command p0 : string) (rest : list string)
    (cfAccount : string) (e : error) :
  CasefoldName rt p0 = (cfAccount, Some e) ->
  run (histservExportHandler rt server client command (p0 :: rest))
  = (Done tt, [EvNotice (Plain (t client "Invalid account name"))]).
Proof.
  intros Hfold.
  unfold histservExportHandler. go_simpl. rewrite Hfold. reflexivity.
Qed.

(** X13.  When the account name casefolds and the file is created,
    [histservExportHandler] names the casefolded account and the file in its
    notice and then starts one goroutine, with that account, the file, the
    same file name and the nick of the requester.  The file name is made of
    the secret token and the time, not of the account. *)
Theorem export_started (rt : Runtime) (server : Server) (client : Client)
    (command p0 : string) (rest : list string) (cfAccount : string)
    (outfile : option os.File) :
  CasefoldName rt p0 = (cfAccount, None) ->
  let filename :=
    (GenerateSecretToken rt ++ "-"
     ++ Format rt (IRCv3TimestampFormat rt) (Now rt) ++ ".json")%string in
  let pathname := getOutputPath (Config_ server) filename in
  Create rt pathname = (outfile, None) ->
  run (histservExportHandler rt server client command (p0 :: rest))
  = (Done tt,
     [EvNow;
      EvCreate pathname;
      EvNotice (Sprintf (t client
        "Started exporting data for account %[1]s to file %[2]s")
        [cfAccount; filename]);
      EvGo cfAccount outfile filename (Nick client)]).
Proof.
  intros Hfold filename pathname Hcreate.
  unfold histservExportHandler.
  go_simpl. rewrite Hfold. go_simpl.
  fold filename. fold pathname. rewrite Hcreate.
  reflexivity.
Qed.

Lemma export_invalid_account_witness :
  run (histservExportHandler Sample.writableRuntime Sample.server
         Sample.admin "export" ["*"])
  = (Done tt, [EvNotice (Plain "Invalid account name")]).
Proof.
  apply (export_invalid_account Sample.writableRuntime Sample.server
           Sample.admin "export" "*" [] "" "invalid name").
  reflexivity.
Defined.

Lemma export_started_witness :
  run (histservExportHandler Sample.writableRuntime Sample.server
         Sample.admin "export" ["Alice"])
  = (Done tt,
     [EvNow;
      EvCreate "/var/lib/ergo/c3VwZXJzZWNyZXQ-2006-01-02T15:04:05.000Z.json";
      EvNotice (Sprintf
        "Started exporting data for account %[1]s to file %[2]s"
        ["alice"; "c3VwZXJzZWNyZXQ-2006-01-02T15:04:05.000Z.json"]);
      EvGo "alice"
           (Some {| os.Name :=
              "/var/lib/ergo/c3VwZXJzZWNyZXQ-2006-01-02T15:04:05.000Z.json" |})
           "c3VwZXJzZWNyZXQ-2006-01-02T15:04:05.000Z.json"
           "admin"]).
Proof.
  apply (export_started Sample.writableRuntime Sample.server Sample.admin
           "export" "Alice" [] "alice"
           (Some {| os.Name :=
              "/var/lib/ergo/c3VwZXJzZWNyZXQ-2006-01-02T15:04:05.000Z.json"
            |})).
  - reflexivity.
  - reflexivity.
Defined.

(** ** histservExportAndNotify: the notice, the order and the log *)

Section ExportAndNotify.

Variable rt : Runtime.
Variables (server : Server) (cfAccount : string).
Variables (outfile : option os.File) (filename alertNick : string).

Let tr : list Event :=
  snd (run (histservExportAndNotify rt server cfAccount outfile filename
              alertNick)).

Ltac export_cases :=
  unfold tr, histservExportAndNotify, requester, completion, logged, run,
    deferRecover, defer, bind, callOutcome, call, ret;
  destruct (historyDB_Export server cfAccount) as [| v];
    [destruct (clients_Get server alertNick) as [client |];
     [destruct (HasRoleCapabs client "history");
      [destruct (Send rt) as [| vs] |] |] |];
    destruct (Flush rt) as [| vf], (Close rt outfile) as [| vc].

(** X14.  The completion notice is sent exactly when [historyDB.Export]
    has returned and the requester is still connected under the same nick
    and still holds the role capability "history"; it names the account and
    the file.  After a panic of the export no such notice is sent. *)
Theorem completion_notice :
  filter isSend tr
  = match historyDB_Export server cfAccount, requester server alertNick with
    | Returns, Some client => [completion client cfAccount filename]
    | _, _ => []
    end.
Proof.
  export_cases; reflexivity.
Qed.

(** X15.  Whatever returns or panics, the events of
    [histservExportAndNotify] come in one order: the export, the completion
    notice if any, [writer.Flush], then [outfile.Close], and last the log
    entry if any, of which there is at most one. *)
Theorem export_event_order :
  tr = [EvExport cfAccount] ++ filter isSend tr
       ++ [EvFlush; EvClose outfile] ++ filter isLogError tr /\
  (List.length (filter isLogError tr) <= 1)%nat.
Proof.
  export_cases; split; cbn; (reflexivity || lia).
Qed.

(** X16.  The panic that is logged is the latest one: that of
    [outfile.Close], else that of [writer.Flush], else that of the export
    or of the notice; and nothing is logged when every call returns. *)
Theorem logged_panic :
  filter isLogError tr
  = match Close rt outfile with
    | Panics v => [logged rt v]
    | Returns =>
        match Flush rt with
        | Panics v => [logged rt v]
        | Returns =>
            match historyDB_Export server cfAccount with
            | Panics v => [logged rt v]
            | Returns =>
                match requester server alertNick, Send rt with
                | Some _, Panics v => [logged rt v]
                | _, _ => []
                end
            end
        end
    end.
Proof.
  export_cases; reflexivity.
Qed.

End ExportAndNotify.

(** ** The command table *)

(** X17.  Every command of HistServ is switched off together with history:
    a command that is enabled in a configuration has [History.Enabled] set
    there. *)
Theorem commands_need_history (name : string) (cmd : serviceCommand)
    (config : Config) :
  In (name, cmd) histservCommands ->
  enabled cmd config = true ->
  History_Enabled config = true.
Proof.
  intros Hin Hen.
  unfold histservCommands in Hin.
  repeat (destruct Hin as [Hin | Hin];
          [injection Hin as <- <-; cbn [enabled] in Hen |]);
    try contradiction.
  - exact Hen.
  - exact Hen.
  - unfold historyComplianceEnabled in Hen.
    destruct (History_Enabled config); [reflexivity | discriminate].
  - exact Hen.
Qed.

Lemma commands_need_history_witness :
  History_Enabled Sample.config = true.
Proof.
  destruct (nth_error histservCommands 2) as [[name cmd] |] eqn:Hcmd;
    [| discriminate Hcmd].
  apply (commands_need_history name cmd Sample.config).
  - apply (nth_error_In histservCommands 2 Hcmd).
  - injection Hcmd as <- <-. reflexivity.
Defined.

Lemma easySelectHistory_returns (rt : Runtime) (server : Server)
    (client : Client) (target : string) (rest : list string) :
  exists r tr,
    run (easySelectHistory rt server client (target :: rest)) = (Done r, tr).
Proof.
  unfold easySelectHistory.
  destruct rest as [| arg rest];
    [rewrite len_one | rewrite len_two_or_more];
    go_simpl;
    destruct (GetHistorySequence server client (historyTarget target))
      as [[channel [sequence |]] [err |]];
    go_simpl; try (eexists; eexists; reflexivity).
  - cbn [Z.eqb].
    destruct (Between sequence _ _ _) as [[items hit] err].
    eexists; eexists; reflexivity.
  - destruct (Atoi rt arg) as [c [e |]].
    + cbn [isNil andb negb]. go_simpl.
      destruct (ParseDuration rt arg) as [d [e' |]];
        destruct (d =? 0); go_simpl;
        destruct (Between sequence _ _ _) as [[items hit] err];
        eexists; eexists; reflexivity.
    + cbn [isNil andb].
      destruct (c =? 0); cbn [negb Z.eqb];
        destruct (Between sequence _ _ _) as [[items hit] err];
        eexists; eexists; reflexivity.
Qed.

Lemma histservPlayHandler_returns (rt : Runtime) (server : Server)
    (client : Client) (command target : string) (rest : list string) :
  fst (run (histservPlayHandler rt server client command (target :: rest)))
  = Done tt.
Proof.
  destruct (easySelectHistory_returns rt server client target rest)
    as ([[items channel] err] & tr0 & Hsel).
  unfold histservPlayHandler, run, bind at 1.
  unfold run in Hsel. rewrite Hsel.
  destruct err as [e |]; [reflexivity |].
  unfold bind. rewrite (forRange_trace _ (rendered rt)).
  - reflexivity.
  - intros item tr. apply play_item.
Qed.

Lemma histservExportHandler_returns (rt : Runtime) (server : Server)
    (client : Client) (command p0 : string) (rest : list string) :
  fst (run (histservExportHandler rt server client command (p0 :: rest)))
  = Done tt.
Proof.
  unfold histservExportHandler. go_simpl.
  destruct (CasefoldName rt p0) as [cfAccount [e |]]; [reflexivity |].
  go_simpl.
  destruct (Create rt _) as [outfile [e |]]; reflexivity.
Qed.

(** X18.  Every entry of the table asks for at least one parameter and at
    most two.  With at least the parameters that its entry asks for, a
    handler reads no parameter out of range and returns; with no parameter
    at all, each of them panics before it does anything. *)
Theorem handlers_within_bounds (name : string) (cmd : serviceCommand) :
  In (name, cmd) histservCommands ->
  1 <= minParams cmd <= maxParams cmd /\
  maxParams cmd <= 2 /\
  forall rt server client params,
    (minParams cmd <= len params ->
     fst (run (handler cmd rt server client name params)) = Done tt) /\
    (params = [] ->
     exists v, run (handler cmd rt server client name params) = (Panic v, [])).
Proof.
  intros Hin.
  assert (Hne : forall params : list string,
             1 <= len params -> exists p0 rest, params = p0 :: rest).
  { intros [| p0 rest] Hlen; [unfold len in Hlen; cbn in Hlen; lia |].
    exists p0, rest. reflexivity. }
  unfold histservCommands in Hin.
  repeat (destruct Hin as [Hin | Hin];
          [injection Hin as <- <-;
           cbn [minParams maxParams handler] |]);
    try contradiction;
    (split; [lia | split; [lia |]]);
    intros rt server client params;
    (split;
     [intros Hlen; destruct (Hne params Hlen) as (p0 & rest & ->)
     | intros ->; eexists; reflexivity]).
  - unfold histservForgetHandler. go_simpl.
    destruct (String.eqb _ ""); reflexivity.
  - assert (shape : exists target msgid,
               deleteParams (p0 :: rest) target msgid).
    { destruct rest as [| p1 rest].
      - exists "", p0. left. split; reflexivity.
      - exists p0, p1. right. exists rest. reflexivity. }
    destruct shape as (target & msgid & shape).
    rewrite (histservDeleteHandler_run server client "delete" (p0 :: rest)
               target msgid shape).
    reflexivity.
  - apply histservExportHandler_returns.
  - apply histservPlayHandler_returns.
Qed.

Lemma handlers_within_bounds_witness :
  fst (run (histservPlayHandler Sample.runtime Sample.server Sample.alice
              "play" ["#general"; "5"]))
  = Done tt.
Proof.
  destruct (nth_error histservCommands 3) as [[name cmd] |] eqn:Hcmd;
    [| discriminate Hcmd].
  destruct (handlers_within_bounds name cmd
              (nth_error_In histservCommands 3 Hcmd)) as (_ & _ & H).
  injection Hcmd as <- <-.
  apply (H Sample.runtime Sample.server Sample.alice ["#general"; "5"]).
  vm_compute. discriminate.
Defined.
